(** * Raseed expense tracker: normalisation and shared-cost allocation

    A shallow embedding of the TypeScript code that turns a backend parse
    into a front-end [Expense] (services/backendService.ts:
    [convertBackendExpenseToFrontend], [extractVendorName],
    [capitalizeWords], [categorizeExpense], [parseExpenseFromText]), of the
    dashboard's per-participant aggregation (components/Dashboard.tsx:
    [calculateParticipantTotals] and the percentage shown next to it) and
    of the shared-space bookkeeping of App.tsx ([loadExpenses],
    [handleReceiptParsed]).  The rest of what the dashboard computes from
    the expenses ([getCategoryColor], the two tabs, [sharedAnalytics],
    [toggleItemExpansion], the budget card, [getExpenseWithSplits]) and the
    text submission of components/UploadReceipt.tsx ([handleSubmit]) are
    embedded as well.

    Modelling conventions.
    - A JS string is a [string] of 8-bit characters; the characters below
      128 are the ASCII code units, on which case mapping, white space and
      the regular-expression classes act as in JavaScript.  Characters from
      128 on are carried along unchanged (they are neither letters nor
      white space here).
    - A JS number is a [number]: an exact rational, or one of NaN,
      +Infinity, -Infinity.  Arithmetic on finite values is exact: binary64
      rounding, overflow and the sign of zero are outside the model.
    - An optional field ([field?: T], or a field the code tests before
      use) is an [option].
    - An object used as a dictionary is a [gmap] from strings; keys that
      collide with the properties every object inherits (such as
      "constructor") are outside the model.
    - A thrown exception is the [Throw] outcome of [result]. *)

From Stdlib Require Import ZArith QArith Qcanon Qround Ascii List Lia.
From stdpp Require Import base numbers strings list gmap fin_maps pretty.

(** ** JavaScript numbers *)

Inductive number : Type :=
  | Finite (q : Qc)
  | NaN
  | PosInfinity
  | NegInfinity.

#[global] Instance number_eq_dec : EqDecision number.
Proof. solve_decision. Defined.

(** Integer literals of the source, such as [0], [100] or [600]. *)
Definition num (z : Z) : number := Finite (Qc_of_Z z).

Definition isFinite (x : number) : bool :=
  match x with Finite _ => true | _ => false end.

(** ToBoolean on a number: [0] and [NaN] are falsy. *)
Definition truthy (x : number) : bool :=
  match x with
  | Finite q => negb (bool_decide (q = Qc_of_Z 0))
  | NaN => false
  | PosInfinity | NegInfinity => true
  end.

(** [a || b] on numbers. *)
Definition or_else (a b : number) : number := if truthy a then a else b.

(** [a + b] *)
Definition add (a b : number) : number :=
  match a, b with
  | Finite p, Finite q => Finite (p + q)
  | NaN, _ | _, NaN => NaN
  | PosInfinity, NegInfinity | NegInfinity, PosInfinity => NaN
  | PosInfinity, _ | _, PosInfinity => PosInfinity
  | NegInfinity, _ | _, NegInfinity => NegInfinity
  end.

(** Sign of a finite value: [Lt], [Eq] or [Gt] against zero. *)
Definition sign (q : Qc) : comparison := (q ?= Qc_of_Z 0)%Qc.

Definition infinity_of (positive : bool) : number :=
  if positive then PosInfinity else NegInfinity.

(** An infinity of the given polarity scaled by a finite factor [q]:
    [NaN] when [q] is zero and [zero_is_nan] holds (as in [Infinity * 0]);
    with [zero_is_nan = false] a zero keeps the polarity (as in
    [Infinity / 0]). *)
Definition scale_infinity (positive zero_is_nan : bool) (q : Qc) : number :=
  match sign q with
  | Gt => infinity_of positive
  | Lt => infinity_of (negb positive)
  | Eq => if zero_is_nan then NaN else infinity_of positive
  end.

(** [a * b] *)
Definition mul (a b : number) : number :=
  match a, b with
  | Finite p, Finite q => Finite (p * q)
  | NaN, _ | _, NaN => NaN
  | PosInfinity, Finite q | Finite q, PosInfinity => scale_infinity true true q
  | NegInfinity, Finite q | Finite q, NegInfinity => scale_infinity false true q
  | PosInfinity, PosInfinity | NegInfinity, NegInfinity => PosInfinity
  | PosInfinity, NegInfinity | NegInfinity, PosInfinity => NegInfinity
  end.

(** [a / b].  A finite value divided by zero is an infinity carrying the
    sign of the dividend, and [0 / 0] is [NaN]. *)
Definition div (a b : number) : number :=
  match a, b with
  | NaN, _ | _, NaN => NaN
  | Finite p, Finite q =>
      match sign q with
      | Eq => match sign p with
              | Eq => NaN
              | Gt => PosInfinity
              | Lt => NegInfinity
              end
      | _ => Finite (p / q)
      end
  | Finite _, (PosInfinity | NegInfinity) => num 0
  | PosInfinity, Finite q => scale_infinity true false q
  | NegInfinity, Finite q => scale_infinity false false q
  | (PosInfinity | NegInfinity), (PosInfinity | NegInfinity) => NaN
  end.

(** [a > b]: false as soon as one side is [NaN]. *)
Definition gt (a b : number) : bool :=
  match a, b with
  | NaN, _ | _, NaN => false
  | Finite p, Finite q => bool_decide (q < p)%Qc
  | PosInfinity, PosInfinity => false
  | PosInfinity, _ => true
  | _, PosInfinity => false
  | NegInfinity, _ => false
  | Finite _, NegInfinity => true
  end.

(** What [Number.prototype.toFixed] hands to the page.  For an absolute
    value of at least 10^21 JavaScript switches to its exponent notation,
    whose digits are not spelled out here: [Exponent x] stands for
    [String(x)]. *)
Inductive display : Type :=
  | Text (s : string)
  | Exponent (q : Qc).

#[global] Instance display_eq_dec : EqDecision display.
Proof. solve_decision. Defined.





(** ** JavaScript strings *)

Definition code (c : ascii) : N := N_of_ascii c.

Definition in_range (lo hi : N) (c : ascii) : bool :=
  (lo <=? code c)%N && (code c <=? hi)%N.

Definition is_upper : ascii -> bool := in_range 65 90.
Definition is_lower : ascii -> bool := in_range 97 122.
Definition is_digit : ascii -> bool := in_range 48 57.
Definition is_letter (c : ascii) : bool := is_upper c || is_lower c.

(** [\s]: tab, line feed, vertical tab, form feed, carriage return, space. *)
Definition is_space (c : ascii) : bool :=
  in_range 9 13 c || (code c =? 32)%N.

(** [\w]: letters, digits and the underscore. *)
Definition is_word (c : ascii) : bool :=
  is_letter c || is_digit c || (code c =? 95)%N.

(** [.] without the [s] flag: anything but a line terminator. *)
Definition is_dot (c : ascii) : bool :=
  negb ((code c =? 10)%N || (code c =? 13)%N).

Definition toLowerChar (c : ascii) : ascii :=
  if is_upper c then ascii_of_N (code c + 32) else c.

Definition toUpperChar (c : ascii) : ascii :=
  if is_lower c then ascii_of_N (code c - 32) else c.

Fixpoint map_chars (f : ascii -> ascii) (s : string) : string :=
  match s with
  | EmptyString => EmptyString
  | String c r => String (f c) (map_chars f r)
  end.

(** [s.toLowerCase()] *)
Definition toLowerCase : string -> string := map_chars toLowerChar.

(** [s.toUpperCase()] *)
Definition toUpperCase : string -> string := map_chars toUpperChar.

Fixpoint trimStart (s : string) : string :=
  match s with
  | String c r => if is_space c then trimStart r else s
  | EmptyString => EmptyString
  end.

Fixpoint trimEnd (s : string) : string :=
  match s with
  | EmptyString => EmptyString
  | String c r =>
      match trimEnd r with
      | EmptyString => if is_space c then EmptyString else String c EmptyString
      | r' => String c r'
      end
  end.

(** [s.trim()] *)
Definition trim (s : string) : string := trimStart (trimEnd s).

(** [s.includes(t)]: [t] starts at some position of [s]. *)
Fixpoint includes (s t : string) : bool :=
  String.prefix t s ||
  match s with
  | EmptyString => false
  | String _ r => includes r t
  end.

(** [s.split(sep)[0]] for a one-character separator: the text before its
    first occurrence, or all of [s]. *)
Fixpoint before (sep : ascii) (s : string) : string :=
  match s with
  | EmptyString => EmptyString
  | String c r => if bool_decide (c = sep) then EmptyString else String c (before sep r)
  end.

(** [parts.join(sep)] *)
Fixpoint join (sep : string) (parts : list string) : string :=
  match parts with
  | [] => ""
  | [p] => p
  | p :: rest => p +:+ sep +:+ join sep rest
  end.

(** [capitalizeWords]: [str.replace(/\b\w+/g, word => word.charAt(0)
    .toUpperCase() + word.slice(1).toLowerCase())].  A match of [\b\w+]
    begins at a word character that does not follow one and, [+] being
    greedy, runs to the end of that run of word characters; so the global
    replace rewrites every maximal run of word characters.  The scan below
    carries whether the previous character belonged to a run. *)
Fixpoint capitalizeWords_from (inWord : bool) (s : string) : string :=
  match s with
  | EmptyString => EmptyString
  | String c r =>
      if is_word c
      then String (if inWord then toLowerChar c else toUpperChar c)
                  (capitalizeWords_from true r)
      else String c (capitalizeWords_from false r)
  end.

Definition capitalizeWords (str : string) : string :=
  capitalizeWords_from false str.

(** ** Regular expressions

    The fragment of the ECMAScript pattern language that the vendor
    patterns use, with the backtracking order of the language: a matcher
    receives the rest of the input, the capture so far and a continuation,
    and the first alternative whose continuation succeeds wins.  All
    patterns of the source carry the [i] flag, so literals compare letters
    without regard to case. *)

Inductive regex : Type :=
  | Lit (t : string)                 (* literal text *)
  | Plus (cls : ascii -> bool)       (* [cls+], greedy *)
  | LazyPlus (cls : ascii -> bool)   (* [cls+?] *)
  | LazyStar (cls : ascii -> bool)   (* [cls*?] *)
  | Group (r : regex)                (* capturing group 1 *)
  | Seq (r1 r2 : regex)
  | Alt (r1 r2 : regex)              (* [r1|r2] *)
  | Eos.                             (* [$] *)

(** Text of capturing group 1, when the group took part in the match. *)
Definition captures : Type := option string.

Definition continuation : Type := string -> captures -> option captures.

Fixpoint strip_literal (t s : string) : option string :=
  match t, s with
  | EmptyString, _ => Some s
  | String a t', String b s' =>
      if bool_decide (toLowerChar a = toLowerChar b) then strip_literal t' s' else None
  | String _ _, EmptyString => None
  end.

Definition or_try {A} (x y : option A) : option A :=
  match x with Some a => Some a | None => y end.

Fixpoint plus_greedy (cls : ascii -> bool) (c : captures) (k : continuation)
    (s : string) : option captures :=
  match s with
  | String a r => if cls a then or_try (plus_greedy cls c k r) (k r c) else None
  | EmptyString => None
  end.

Fixpoint plus_lazy (cls : ascii -> bool) (c : captures) (k : continuation)
    (s : string) : option captures :=
  match s with
  | String a r => if cls a then or_try (k r c) (plus_lazy cls c k r) else None
  | EmptyString => None
  end.

Fixpoint star_lazy (cls : ascii -> bool) (c : captures) (k : continuation)
    (s : string) : option captures :=
  or_try (k s c)
    match s with
    | String a r => if cls a then star_lazy cls c k r else None
    | EmptyString => None
    end.

(** What a group that began at [s] and ended at the suffix [s'] consumed. *)
Definition consumed (s s' : string) : string :=
  String.substring 0 (String.length s - String.length s') s.

Fixpoint matches (r : regex) (s : string) (c : captures) (k : continuation)
    : option captures :=
  match r with
  | Lit t => match strip_literal t s with Some s' => k s' c | None => None end
  | Plus cls => plus_greedy cls c k s
  | LazyPlus cls => plus_lazy cls c k s
  | LazyStar cls => star_lazy cls c k s
  | Group r1 => matches r1 s c (fun s' _ => k s' (Some (consumed s s')))
  | Seq r1 r2 => matches r1 s c (fun s' c' => matches r2 s' c' k)
  | Alt r1 r2 => or_try (matches r1 s c k) (matches r2 s c k)
  | Eos => match s with EmptyString => k s c | String _ _ => None end
  end.

(** [str.match(re)] for a pattern without the [g] flag: the match at the
    leftmost position that has one; the result is its group 1. *)
Fixpoint regex_match (r : regex) (str : string) : option captures :=
  or_try (matches r str None (fun _ c => Some c))
    match str with
    | EmptyString => None
    | String _ rest => regex_match r rest
    end.

(** ** Outcomes of fallible code *)

Inductive exn : Type :=
  | TypeError.   (* reading a property of [undefined] *)

Inductive result (A : Type) : Type :=
  | Ok (a : A)
  | Throw (e : exn).
Arguments Ok {A} a.
Arguments Throw {A} e.

Definition bind {A B} (x : result A) (f : A -> result B) : result B :=
  match x with
  | Ok a => f a
  | Throw e => Throw e
  end.

Notation "x <- e1 ;; e2" := (bind e1 (fun x => e2))
  (at level 100, e1 at next level, right associativity).

(** Using a possibly [undefined] object: property access throws. *)
Definition defined {A} (x : option A) : result A :=
  match x with
  | Some a => Ok a
  | None => Throw TypeError
  end.

(** ** Data model (types.ts and the interfaces of backendService.ts) *)

Inductive ExpenseType : Type := personal | shared.

#[global] Instance ExpenseType_eq_dec : EqDecision ExpenseType.
Proof. solve_decision. Defined.

(** One entry of [BackendLineItem.splits]: [{ participant, amount }]. *)
Record Split : Type := {
  participant : string;
  split_amount : number;          (* [amount] *)
}.

(** [splits] is declared as always present; the dashboard nevertheless
    tests it before use, so it is optional here. *)
Record BackendLineItem : Type := {
  description : string;
  amount : number;
  category : option string;
  allocation_text : string;
  splits : option (list Split);
}.

(** [BackendExpenseResult], the parse result.  [line_items] may be missing
    from a malformed parse; [clean_participants] and [is_shared] are tested
    for presence by the code.  [processing_time] and [status] are never
    read by the modelled code and left out. *)
Record BackendExpenseResult : Type := {
  participants : list string;
  clean_participants : option (list string);
  is_shared : option bool;
  expense_type : option ExpenseType;
  line_items : option (list BackendLineItem);
  total_amount : number;
}.

Record BackendExpense : Type := {
  id : Z;
  user_id : string;
  original_text : string;
  parsed_data : BackendExpenseResult;
  status : string;
  created_at : string;
}.

Record LineItem : Type := {
  item_description : string;      (* [description] *)
  price : number;
  item_category : option string;  (* [category] *)
}.

Record SharedDetails : Type := {
  sd_members : list string;       (* [members] *)
  paidBy : string;
}.

Record SharedSpace : Type := {
  space_id : string;              (* [id] *)
  name : string;
  space_members : list string;    (* [members] *)
}.

(** The [backendData] that [convertBackendExpenseToFrontend] attaches. *)
Record BackendData : Type := {
  bd_line_items : list BackendLineItem;
  bd_participants : list string;
  bd_clean_participants : list string;
}.

Record Expense : Type := {
  expense_id : string;            (* [id] *)
  vendorName : string;
  transactionDate : string;
  totalAmount : number;
  expense_category : string;      (* [category] *)
  lineItems : list LineItem;
  type : ExpenseType;
  sharedSpaceId : option string;
  sharedDetails : option SharedDetails;
  members : option (list string);
  backendData : option BackendData;
}.

(** ** backendService.ts *)

(** [[A-Za-z\s]] *)
Definition vendor_class (c : ascii) : bool := is_letter c || is_space c.

(** [(?:\s+with|\s+for|\s+yesterday|\s+today|\.|$)] *)
Definition vendor_end : regex :=
  Alt (Seq (Plus is_space) (Lit "with"))
 (Alt (Seq (Plus is_space) (Lit "for"))
 (Alt (Seq (Plus is_space) (Lit "yesterday"))
 (Alt (Seq (Plus is_space) (Lit "today"))
 (Alt (Lit ".")
      Eos)))).

(** [\s+([A-Za-z\s]+?)(?:...)], the tail shared by the four patterns. *)
Definition vendor_tail : regex :=
  Seq (Plus is_space) (Seq (Group (LazyPlus vendor_class)) vendor_end).

Definition vendorPatterns : list regex :=
  [ Seq (Lit "at") vendor_tail;
    Seq (Lit "went") (Seq (Plus is_space) (Seq (Lit "to") vendor_tail));
    Seq (Lit "from") vendor_tail;
    Seq (Lit "bought") (Seq (LazyStar is_dot) (Seq (Lit "from") vendor_tail)) ].

(** The body of the [for] loop for one pattern: the trimmed group 1 when
    the pattern matches, the group is not empty and the trimmed text is
    longer than 2 and shorter than 50 characters. *)
Definition vendor_of_pattern (originalText : string) (pattern : regex)
    : option string :=
  match regex_match pattern originalText with
  | Some (Some g) =>
      if bool_decide (g = "") then None
      else
        let vendor := trim g in
        if (2 <? String.length vendor) && (String.length vendor <? 50)
        then Some vendor else None
  | _ => None
  end.

(** The [for (const pattern of vendorPatterns)] loop: the first pattern
    that yields a vendor ends it. *)
Fixpoint first_vendor (originalText : string) (patterns : list regex)
    : option string :=
  match patterns with
  | [] => None
  | pattern :: rest =>
      match vendor_of_pattern originalText pattern with
      | Some vendor => Some vendor
      | None => first_vendor originalText rest
      end
  end.

(** [lineItems.reduce((max, item) => item.amount > max.amount ? item : max,
    lineItems[0])] *)
Definition primaryItem (first : BackendLineItem) (lineItems : list BackendLineItem)
    : BackendLineItem :=
  fold_left (fun max item => if gt (amount item) (amount max) then item else max)
            lineItems first.

Definition extractVendorName (originalText : string)
    (lineItems : option (list BackendLineItem)) : result string :=
  match first_vendor originalText vendorPatterns with
  | Some vendor => Ok (capitalizeWords vendor)
  | None =>
      items <- defined lineItems ;;            (* [lineItems.length] *)
      match items with
      | first :: _ =>
          let description := description (primaryItem first items) in
          if String.length description <? 30
          then Ok (capitalizeWords description)
          else Ok "Expense"
      | [] => Ok "Expense"
      end
  end.

Definition categorizeExpense (lineItems : list BackendLineItem) : string :=
  let descriptions :=
    join " " (map (fun item => toLowerCase (description item)) lineItems) in
  if includes descriptions "food" || includes descriptions "restaurant"
     || includes descriptions "cafe" then "Dining"
  else if includes descriptions "grocery" || includes descriptions "supermarket"
  then "Groceries"
  else if includes descriptions "fuel" || includes descriptions "gas"
          || includes descriptions "petrol" then "Transport"
  else if includes descriptions "electronics" || includes descriptions "phone"
          || includes descriptions "laptop" then "Electronics"
  else if includes descriptions "clothes" || includes descriptions "shopping"
  then "Shopping"
  else if includes descriptions "utility" || includes descriptions "electricity"
          || includes descriptions "water" then "Utilities"
  else "Other".

(** [p => p && p.toLowerCase() !== 'me' && p.toLowerCase() !== 'myself'
    && p.toLowerCase() !== 'i'] *)
Definition not_self (p : string) : bool :=
  negb (bool_decide (p = ""))
  && negb (bool_decide (toLowerCase p = "me"))
  && negb (bool_decide (toLowerCase p = "myself"))
  && negb (bool_decide (toLowerCase p = "i")).

(** [clean_participants || participants.filter(...)]: an array, even an
    empty one, is truthy. *)
Definition cleanParticipantsOf (clean : option (list string))
    (raw : list string) : list string :=
  match clean with
  | Some cleaned => cleaned
  | None => List.filter not_self raw
  end.

(** The [if (isShared)] block: both member lists are ['You', ...clean]. *)
Definition with_sharing (cleanParticipants : list string) (e : Expense) : Expense :=
  {| expense_id := expense_id e;
     vendorName := vendorName e;
     transactionDate := transactionDate e;
     totalAmount := totalAmount e;
     expense_category := expense_category e;
     lineItems := lineItems e;
     type := type e;
     sharedSpaceId := sharedSpaceId e;
     sharedDetails := Some {| sd_members := "You" :: cleanParticipants;
                              paidBy := "You" |};
     members := Some ("You" :: cleanParticipants);
     backendData := backendData e |}.

(** [parsed_data] is taken as the parsed object; the [JSON.parse] of a
    stored string happens before this point. *)
Definition convertBackendExpenseToFrontend (backendExpense : BackendExpense)
    : result Expense :=
  let parsedData := parsed_data backendExpense in
  let cleanParticipants :=
    cleanParticipantsOf (clean_participants parsedData) (participants parsedData) in
  let isShared :=
    match is_shared parsedData with
    | Some explicit => explicit
    | None => 0 <? length cleanParticipants
    end in
  vendor <- extractVendorName (original_text backendExpense) (line_items parsedData) ;;
  items <- defined (line_items parsedData) ;;      (* [line_items.map] *)
  let expense :=
    {| expense_id := "backend-" +:+ pretty (id backendExpense);
       vendorName := vendor;
       transactionDate := before "T" (created_at backendExpense);
       totalAmount := total_amount parsedData;
       expense_category := categorizeExpense items;
       lineItems :=
         map (fun item => {| item_description := description item;
                             price := amount item;
                             item_category := category item |}) items;
       type := if isShared then shared else personal;
       sharedSpaceId := None;
       sharedDetails := None;
       members := None;
       backendData :=
         Some {| bd_line_items := items;
                 bd_participants := participants parsedData;
                 bd_clean_participants := cleanParticipants |} |} in
  Ok (if isShared then with_sharing cleanParticipants expense else expense).

(** [ParseExpenseResponse], what the parse end point answers. *)
Record ParseExpenseResponse : Type := {
  message : string;
  document_id : Z;
  r_participants : list string;                  (* [participants] *)
  r_clean_participants : option (list string);   (* [clean_participants] *)
  r_is_shared : option bool;                     (* [is_shared] *)
  r_expense_type : option ExpenseType;           (* [expense_type] *)
  r_line_items : option (list BackendLineItem);  (* [line_items] *)
  r_total_amount : number;                       (* [total_amount] *)
  r_status : string;                             (* [status] *)
}.

(** The [mockBackendExpense] that [parseExpenseFromText] builds from the
    answer; [now] is [new Date().toISOString()]. *)
Definition mockBackendExpense (authToken text now : string)
    (response : ParseExpenseResponse) : BackendExpense :=
  let cleaned :=
    cleanParticipantsOf (r_clean_participants response) (r_participants response) in
  {| id := document_id response;
     user_id := authToken;
     original_text := text;
     parsed_data :=
       {| participants := r_participants response;
          clean_participants := Some cleaned;
          (* [response.is_shared || (...).length > 0] *)
          is_shared :=
            Some (match r_is_shared response with
                  | Some true => true
                  | _ => 0 <? length cleaned
                  end);
          expense_type :=
            Some (match r_expense_type response with
                  | Some t => t
                  | None => if 0 <? length cleaned then shared else personal
                  end);
          line_items := r_line_items response;
          total_amount := r_total_amount response |};
     status := r_status response;
     created_at := now |}.

(** [parseExpenseFromText] once the answer of [parseExpense] has arrived. *)
Definition parseExpenseFromText (authToken text now : string)
    (response : ParseExpenseResponse) : result Expense :=
  convertBackendExpenseToFrontend (mockBackendExpense authToken text now response).

(** ** Dashboard.tsx: participant totals *)

(** [split.participant === 'me' ? 'You' : split.participant] *)
Definition canonical (p : string) : string :=
  if bool_decide (p = "me") then "You" else p.

(** [participantTotals[participant] || 0] *)
Definition current_total (participantTotals : gmap string number) (p : string)
    : number :=
  match participantTotals !! p with
  | Some total => or_else total (num 0)
  | None => num 0
  end.

(** The body of [item.splits.forEach]. *)
Definition add_split (participantTotals : gmap string number) (split : Split)
    : gmap string number :=
  let p := canonical (participant split) in
  <[p := add (current_total participantTotals p) (split_amount split)]>
    participantTotals.

(** The body of [lineItemsWithSplits.forEach]. *)
Definition add_item (participantTotals : gmap string number)
    (item : BackendLineItem) : gmap string number :=
  match splits item with
  | Some present =>
      if 0 <? length present
      then fold_left add_split present participantTotals
      else participantTotals
  | None => participantTotals
  end.

Definition calculateParticipantTotals (lineItemsWithSplits : list BackendLineItem)
    : gmap string number :=
  fold_left add_item lineItemsWithSplits ∅.


(** ** App.tsx: shared spaces *)

(** The test of [newSharedSpaces.find]: [space.members.length ===
    expense.members.length && space.members.every(member =>
    expense.members.includes(member))]. *)
Definition same_members (expenseMembers : list string) (space : SharedSpace) : bool :=
  (length (space_members space) =? length expenseMembers)
  && forallb (fun member => bool_decide (member ∈ expenseMembers))
             (space_members space).

Section SharedSpaces.

(** [randomUUID n] is what the [n]-th call of [crypto.randomUUID()]
    returns. *)
Variable randomUUID : nat -> string.

(** [expense.sharedSpaceId || crypto.randomUUID()] after [calls] earlier
    calls of the generator: the id and the new number of calls.  An
    empty id is falsy. *)
Definition space_id_for (expense : Expense) (calls : nat) : string * nat :=
  match sharedSpaceId expense with
  | Some given =>
      if bool_decide (given = "") then (randomUUID calls, S calls)
      else (given, calls)
  | None => (randomUUID calls, S calls)
  end.

(** The body of [backendExpenses.forEach] in [loadExpenses], on
    [newSharedSpaces] and the number of ids drawn so far. *)
Definition group_step (acc : list SharedSpace * nat) (expense : Expense)
    : list SharedSpace * nat :=
  let '(newSharedSpaces, calls) := acc in
  match type expense, members expense with
  | shared, Some expenseMembers =>
      if existsb (same_members expenseMembers) newSharedSpaces
      then acc
      else
        let '(fresh, calls') := space_id_for expense calls in
        (newSharedSpaces ++
           [ {| space_id := fresh;
                name := vendorName expense +:+ " Group";
                space_members := expenseMembers |} ],
         calls')
  | _, _ => acc
  end.

(** The shared spaces that [loadExpenses] derives from the converted
    expenses. *)
Definition groupSharedSpaces (expenses : list Expense) : list SharedSpace :=
  fst (fold_left group_step expenses ([], 0)).

End SharedSpaces.

(** The part of the [App] component's state that the handlers below
    touch. *)
Record AppState : Type := {
  sharedSpaces : list SharedSpace;
  expenses : list Expense;
}.

(** [newExpense] after the assignments of [handleReceiptParsed]. *)
Definition set_sharing (t : ExpenseType) (spaceId : option string)
    (details : option SharedDetails) (e : Expense) : Expense :=
  {| expense_id := expense_id e;
     vendorName := vendorName e;
     transactionDate := transactionDate e;
     totalAmount := totalAmount e;
     expense_category := expense_category e;
     lineItems := lineItems e;
     type := t;
     sharedSpaceId := spaceId;
     sharedDetails := details;
     members := members e;
     backendData := backendData e |}.

Definition has_several_members (e : Expense) : option (list string) :=
  match members e with
  | Some ms => if 1 <? length ms then Some ms else None
  | None => None
  end.

(** [handleReceiptParsed]; [uuid] is the value [crypto.randomUUID()]
    returns when it is called. *)
Definition handleReceiptParsed (uuid : string) (parsedData : Expense)
    (st : AppState) : AppState :=
  match has_several_members parsedData with
  | Some ms =>
      let newSharedSpace :=
        {| space_id := uuid;
           name := vendorName parsedData +:+ " Bill";
           space_members := ms |} in
      let details :=
        match sharedDetails parsedData with
        | Some present => present
        | None => {| sd_members := space_members newSharedSpace; paidBy := "You" |}
        end in
      {| sharedSpaces := sharedSpaces st ++ [newSharedSpace];
         expenses := expenses st ++
                     [set_sharing shared (Some (space_id newSharedSpace))
                                  (Some details) parsedData] |}
  | None =>
      {| sharedSpaces := sharedSpaces st;
         expenses := expenses st ++
                     [set_sharing personal (sharedSpaceId parsedData)
                                  (sharedDetails parsedData) parsedData] |}
  end.

(** * The rest of the modelled code

    Array lengths, positions, character codes and counters only ever hold
    natural numbers and are [nat]s. *)

(** ** Dashboard.tsx *)

(** The ten (background, text) colour pairs of [getCategoryColor], with
    the constants of [GoogleColors] written out. *)
Definition category_colors : list (string * string) :=
  [ ("#4285F420", "#4285F4"); ("#34A85320", "#34A853");
    ("#FBBC0520", "#F9AB00"); ("#EA433520", "#EA4335");
    ("#E1F5FE", "#0277BD"); ("#FFF3E0", "#F57C00");
    ("#F3E5F5", "#7B1FA2"); ("#E8F5E8", "#2E7D32");
    ("#FFF8E1", "#F9A825"); ("#F1F3F4", "#80868B") ].

(** [category.split('').reduce((acc, char) => acc + char.charCodeAt(0), 0)] *)
Fixpoint category_hash (acc : nat) (category : string) : nat :=
  match category with
  | EmptyString => acc
  | String char rest => category_hash (acc + N.to_nat (code char)) rest
  end.

(** [getCategoryColor]: [colors[hash % colors.length]], which is
    [undefined] ([None]) for a position outside the array. *)
Definition getCategoryColor (category : string) : option (string * string) :=
  category_colors !! (category_hash 0 category mod length category_colors).

(** [expenses.filter(e => e.type === 'personal')] *)
Definition personalExpenses (expenses : list Expense) : list Expense :=
  List.filter (fun e => bool_decide (type e = personal)) expenses.

(** [expenses.filter(e => e.type === 'shared')] *)
Definition sharedExpenses (expenses : list Expense) : list Expense :=
  List.filter (fun e => bool_decide (type e = shared)) expenses.

Record SharedAnalytics : Type := {
  totalSharedAmount : number;
  averageSharedAmount : number;
  participantCounts : gmap nat nat;
}.

(** [exp.members?.length || 0] *)
Definition memberCount (exp : Expense) : nat :=
  match members exp with
  | Some ms => length ms
  | None => 0
  end.

(** The body of the [reduce] that fills [participantCounts]:
    [acc[memberCount] = (acc[memberCount] || 0) + 1]. *)
Definition count_members (acc : gmap nat nat) (exp : Expense) : gmap nat nat :=
  <[memberCount exp := default 0 (acc !! memberCount exp) + 1]> acc.

(** The [sharedAnalytics] memo, from the shared expenses. *)
Definition sharedAnalytics (shared_list : list Expense) : SharedAnalytics :=
  let total :=
    fold_left (fun sum exp => add sum (totalAmount exp)) shared_list (num 0) in
  {| totalSharedAmount := total;
     averageSharedAmount :=
       if 0 <? length shared_list
       then div total (num (Z.of_nat (length shared_list)))
       else num 0;
     participantCounts := fold_left count_members shared_list ∅ |}.

(** [toggleItemExpansion]: the new set of expanded items. *)
Definition toggleItemExpansion (expandedItemIds : gset string) (itemId : string)
    : gset string :=
  if bool_decide (itemId ∈ expandedItemIds)
  then expandedItemIds ∖ {[itemId]}
  else expandedItemIds ∪ {[itemId]}.

(** [getExpenseWithSplits]: the backend's line items when the expense
    carries them, else the expense's own items with empty [splits].  The
    objects of the second case have no [allocation_text]; nothing reads
    it, and the empty string stands for the missing field. *)
Definition getExpenseWithSplits (expense : Expense) : list BackendLineItem :=
  match backendData expense with
  | Some data => bd_line_items data
  | None =>
      map (fun item => {| description := item_description item;
                          amount := price item;
                          category := item_category item;
                          allocation_text := "";
                          splits := Some [] |})
          (lineItems expense)
  end.

(** [a - b] *)
Definition sub (a b : number) : number :=
  match a, b with
  | Finite p, Finite q => Finite (p - q)
  | NaN, _ | _, NaN => NaN
  | PosInfinity, PosInfinity | NegInfinity, NegInfinity => NaN
  | PosInfinity, _ | _, NegInfinity => PosInfinity
  | NegInfinity, _ | _, PosInfinity => NegInfinity
  end.

(** [Math.min(a, b)] *)
Definition math_min (a b : number) : number :=
  match a, b with
  | NaN, _ | _, NaN => NaN
  | _, _ => if gt a b then b else a
  end.

(** The fields of [DashboardStatsResponse] that the overview cards read. *)
Record DashboardStatsResponse : Type := {
  this_month_total : number;
  last_month_total : number;
}.

(** What [renderOverviewCards] computes for the budget card: the amount
    left, the progress in percent, the width of the bar
    ([Math.min(budgetProgress, 100)]) and whether the bar is red
    ([budgetProgress > 100]). *)
Record BudgetCard : Type := {
  budgetRemaining : number;
  budgetProgress : number;
  barWidth : number;
  barIsRed : bool;
}.

Definition budgetCard (dashboardStats : option DashboardStatsResponse)
    (monthlyBudget : number) : BudgetCard :=
  let thisMonthTotal :=
    match dashboardStats with          (* [dashboardStats?.this_month_total || 0] *)
    | Some stats => or_else (this_month_total stats) (num 0)
    | None => num 0
    end in
  let progress :=
    if gt monthlyBudget (num 0)
    then mul (div thisMonthTotal monthlyBudget) (num 100)
    else num 0 in
  {| budgetRemaining := sub monthlyBudget thisMonthTotal;
     budgetProgress := progress;
     barWidth := math_min progress (num 100);
     barIsRed := gt progress (num 100) |}.

(** ** App.tsx and UploadReceipt.tsx: loading and submitting *)

(** [response.expenses.map(exp => convertBackendExpenseToFrontend(exp))]:
    the first exception ends the [map]. *)
Fixpoint convertAll (backendExpenses : list BackendExpense) : result (list Expense) :=
  match backendExpenses with
  | [] => Ok []
  | exp :: rest =>
      e <- convertBackendExpenseToFrontend exp ;;
      es <- convertAll rest ;;
      Ok (e :: es)
  end.

(** [loadExpenses] once the health check and [getExpenses] have answered
    with [response]: the new state and the error shown, if any.  Both
    setters replace what the state held; the [catch] leaves it alone. *)
Definition loadExpenses (randomUUID : nat -> string)
    (response : list BackendExpense) (st : AppState) : AppState * option exn :=
  match convertAll response with
  | Ok backendExpenses =>
      ({| sharedSpaces := groupSharedSpaces randomUUID backendExpenses;
          expenses := backendExpenses |}, None)
  | Throw e => (st, Some e)
  end.

(** [handleSubmit] of the upload form in text mode (no image chosen, no
    request under way), once [parseExpense] has answered: nothing happens
    for a text that is blank; a failed conversion is shown as an error and
    the parsed expense is not handed on. *)
Definition handleSubmit (authToken billText now uuid : string)
    (response : ParseExpenseResponse) (st : AppState) : AppState * option exn :=
  if bool_decide (trim billText = "") then (st, None)
  else
    match parseExpenseFromText authToken (trim billText) now response with
    | Ok parsedData => (handleReceiptParsed uuid parsedData st, None)
    | Throw e => (st, Some e)
    end.

(** * Specification-side notions

    Definitions that follow the words of the specification; the theorems
    below compare them with the code above. *)

(** A line item that carries only a description: the other fields do not
    take part in categorisation. *)
Definition described (d : string) : BackendLineItem :=
  {| description := d; amount := num 0; category := None;
     allocation_text := ""; splits := None |}.

(** The ordered table of (category, keyword set) pairs of the
    specification. *)
Definition category_table : list (string * list string) :=
  [ ("Dining", ["food"; "restaurant"; "cafe"]);
    ("Groceries", ["grocery"; "supermarket"]);
    ("Transport", ["fuel"; "gas"; "petrol"]);
    ("Electronics", ["electronics"; "phone"; "laptop"]);
    ("Shopping", ["clothes"; "shopping"]);
    ("Utilities", ["utility"; "electricity"; "water"]) ].

(** The search string: the case-folded descriptions, a blank between two
    neighbours (the source joins them with [' ']). *)
Definition search_string (lineItems : list BackendLineItem) : string :=
  join " " (map (fun item => toLowerCase (description item)) lineItems).

(** [t] occurs in [s]. *)
Definition substring_of (t s : string) : Prop :=
  exists pre post, s = pre +:+ t +:+ post.

(** The first category of the table one of whose keywords occurs in the
    search string, ["Other"] when there is none. *)
Fixpoint first_category (table : list (string * list string)) (search : string)
    : string :=
  match table with
  | [] => "Other"
  | (tag, keywords) :: rest =>
      if existsb (includes search) keywords then tag
      else first_category rest search
  end.

Definition categorize (lineItems : list BackendLineItem) : string :=
  first_category category_table (search_string lineItems).

(** How often [x] occurs in [l]. *)
Definition occurrences (x : string) (l : list string) : nat :=
  length (List.filter (fun member => bool_decide (member = x)) l).

(** The clean participant list the Canonicalizer works with. *)
Definition cleanParticipants (backendExpense : BackendExpense) : list string :=
  cleanParticipantsOf (clean_participants (parsed_data backendExpense))
                      (participants (parsed_data backendExpense)).

(** A stored expense: the given parse, for the text "Dinner" written on
    2 January 2024. *)
Definition stored (parse : BackendExpenseResult) : BackendExpense :=
  {| id := 7; user_id := "user-one"; original_text := "Dinner";
     parsed_data := parse; status := "success";
     created_at := "2024-01-02T10:00:00.000Z" |}.

Definition a_parse (raw : list string) (clean : option (list string))
    (flag : option bool) (items : option (list BackendLineItem))
    (total : number) : BackendExpenseResult :=
  {| participants := raw; clean_participants := clean; is_shared := flag;
     expense_type := None; line_items := items; total_amount := total |}.

(** The upstream parse names the user as "You" among the participants. *)
Definition parse_naming_you : BackendExpense :=
  stored (a_parse ["You"; "Priya"] None None (Some [described "pizza"]) (num 900)).

(** A parse whose total is not a number. *)
Definition parse_nan_total : BackendExpense :=
  stored (a_parse [] None None (Some [described "pizza"]) NaN).

(** A parse without line items. *)
Definition parse_without_items : BackendExpense :=
  stored (a_parse [] None None None (num 900)).

(** The sharing-detection example of the specification. *)
Definition parse_rohit_priya : BackendExpense :=
  stored (a_parse ["Rohit"; "Priya"] (Some ["Rohit"; "Priya"]) None
                  (Some [described "pizza"]) (num 900)).

(** An answer of the parse end point that says [is_shared: false] and
    still lists a participant. *)
Definition response_explicit_false : ParseExpenseResponse :=
  {| message := "ok"; document_id := 7;
     r_participants := ["Priya"]; r_clean_participants := Some ["Priya"];
     r_is_shared := Some false; r_expense_type := Some personal;
     r_line_items := Some [described "pizza"]; r_total_amount := num 900;
     r_status := "success" |}.



(** The sum of the amounts of a list of splits. *)
Definition sum_of_amounts (l : list Split) : number :=
  foldr (fun split acc => add (split_amount split) acc) (num 0) l.



Definition a_split (p : string) (a : Z) : Split :=
  {| participant := p; split_amount := num a |}.

(** A line item of the given amount and splits. *)
Definition split_item (a : Z) (l : option (list Split)) : BackendLineItem :=
  {| description := "bill"; amount := num a; category := None;
     allocation_text := ""; splits := l |}.

(** The set of members of a member list: equality of such sets is
    equality of member lists up to order and repetition. *)
Definition member_set (ms : list string) : gset string := list_to_set ms.

(** The member sets of a list of shared spaces, one per space and in the
    order of the spaces. *)
Definition member_set_list (spaces : list SharedSpace) : list (gset string) :=
  map (fun space => member_set (space_members space)) spaces.

(** The family of member sets of a list of shared spaces. *)
Definition member_sets (spaces : list SharedSpace) : gset (gset string) :=
  list_to_set (member_set_list spaces).

(** Two spaces at different positions have the same member set. *)
Definition has_duplicate_space (spaces : list SharedSpace) : Prop :=
  exists i j s1 s2,
    i < j /\ spaces !! i = Some s1 /\ spaces !! j = Some s2
    /\ member_set (space_members s1) = member_set (space_members s2).

(** An expense as it reaches the grouping code and the receipt handler:
    vendor, type and members given, the rest fixed. *)
Definition an_expense (vendor : string) (t : ExpenseType)
    (ms : option (list string)) : Expense :=
  {| expense_id := "backend-1"; vendorName := vendor;
     transactionDate := "2024-01-02"; totalAmount := num 900;
     expense_category := "Other"; lineItems := []; type := t;
     sharedSpaceId := None; sharedDetails := None; members := ms;
     backendData := None |}.

Definition empty_state : AppState := {| sharedSpaces := []; expenses := [] |}.

(** The member list with which an expense takes part in the grouping:
    that of a shared expense that has one. *)
Definition shared_member_list (e : Expense) : option (list string) :=
  match type e, members e with
  | shared, Some ms => Some ms
  | _, _ => None
  end.

(** The family of member sets of the shared expenses of a collection. *)
Definition shared_sets (l : list Expense) : gset (gset string) :=
  list_to_set (map member_set (omap shared_member_list l)).

(** No member is listed twice in the expense's member list. *)
Definition distinct_members (e : Expense) : Prop :=
  forall ms, shared_member_list e = Some ms -> NoDup ms.

(** A generator of ids for the examples. *)
Definition numbered_uuid (n : nat) : string := "uuid-" +:+ pretty n.

(** Two expenses, one of which lists "You" twice. *)
Definition expense_you_twice : Expense :=
  an_expense "Cafe" shared (Some ["You"; "You"; "Priya"]).
Definition expense_three_friends : Expense :=
  an_expense "Mart" shared (Some ["You"; "Priya"; "Rohit"]).

(** The span a pattern captures in a text: group 1 of its leftmost match,
    white space trimmed off both ends; none when the pattern does not
    match or the group is empty. *)
Definition captured_span (pattern : regex) (text : string) : option string :=
  match regex_match pattern text with
  | Some (Some g) => if bool_decide (g = "") then None else Some (trim g)
  | _ => None
  end.

(** A span of length strictly between 2 and 50. *)
Definition acceptable (span : string) : Prop :=
  2 < String.length span /\ String.length span < 50.

(** No pattern of the list captures an acceptable span. *)
Definition no_vendor_in (patterns : list regex) (text : string) : Prop :=
  forall pattern span,
    pattern ∈ patterns -> captured_span pattern text = Some span -> ~ acceptable span.

(** [x] is the item of highest amount, the first one among equals: no
    item's amount is greater, and every item before it has a smaller
    amount. *)
Definition first_highest (lineItems : list BackendLineItem) (x : BackendLineItem)
    : Prop :=
  exists i,
    lineItems !! i = Some x
    /\ (forall y, y ∈ lineItems -> gt (amount y) (amount x) = false)
    /\ (forall j y, j < i -> lineItems !! j = Some y -> gt (amount x) (amount y) = true).

(** Whether position [i] of [s] follows a word character. *)
Definition follows_word_char (s : string) (i : nat) : bool :=
  match i with
  | 0 => false
  | S j => match String.get j s with Some p => is_word p | None => false end
  end.

(** [t] is [s] word-capitalised: of the same length, with every word
    character that begins a run of word characters in upper case, every
    other word character in lower case, and the rest unchanged. *)
Definition word_capitalised (s t : string) : Prop :=
  String.length t = String.length s
  /\ forall i c,
       String.get i s = Some c ->
       String.get i t
       = Some (if is_word c
               then if follows_word_char s i then toLowerChar c else toUpperChar c
               else c).

(** A line item with a description and an amount. *)
Definition priced (d : string) (a : Z) : BackendLineItem :=
  {| description := d; amount := num a; category := None;
     allocation_text := ""; splits := None |}.

(** The sum of the values of a count table. *)
Definition sum_of_counts (counts : gmap nat nat) : nat :=
  map_fold (fun _ n acc => n + acc) 0 counts.

(** How many expenses of [l] list exactly [k] members. *)
Definition with_member_count (k : nat) (l : list Expense) : nat :=
  length (List.filter (fun exp => bool_decide (memberCount exp = k)) l).


(** The dashboard statistics with the given total of this month. *)
Definition stats_with (thisMonth : Qc) : DashboardStatsResponse :=
  {| this_month_total := Finite thisMonth; last_month_total := num 0 |}.

(** * Properties of the string primitives *)

Lemma append_cons (c : ascii) (a b : string) :
  String c a +:+ b = String c (a +:+ b).
Proof. reflexivity. Qed.

Lemma append_empty_l (b : string) : "" +:+ b = b.
Proof. reflexivity. Qed.

Lemma append_assoc (a b c : string) : (a +:+ b) +:+ c = a +:+ b +:+ c.
Proof.
  induction a as [|x a IH]; [done|].
  rewrite !append_cons. by f_equal.
Qed.

Lemma prefix_spec (t s : string) :
  String.prefix t s = true <-> exists post, s = t +:+ post.
Proof.
  revert s; induction t as [|a t IH]; intros s.
  - split; [intros _; exists s; reflexivity | intros _; by destruct s].
  - destruct s as [|b s]; simpl.
    { split; [done | intros [post Hp]; rewrite append_cons in Hp; done]. }
    destruct (ascii_dec a b) as [->|Hne].
    + rewrite IH. split; intros [post Hp]; exists post.
      * by rewrite append_cons, Hp.
      * rewrite append_cons in Hp. by injection Hp.
    + split; [done | intros [post Hp]].
      rewrite append_cons in Hp. injection Hp; congruence.
Qed.

Lemma includes_spec (s t : string) :
  includes s t = true <-> substring_of t s.
Proof.
  induction s as [|c s IH]; cbn [includes].
  - rewrite orb_false_r, prefix_spec. split.
    + intros [post Hp]. by exists "", post.
    + intros ([|x pre] & post & Hp); [by exists post |].
      rewrite append_cons in Hp. done.
  - rewrite orb_true_iff, prefix_spec, IH. split.
    + intros [[post Hp] | (pre & post & Hp)].
      * by exists "", post.
      * exists (String c pre), post. by rewrite append_cons, Hp.
    + intros ([|x pre] & post & Hp).
      * left. by exists post.
      * right. rewrite append_cons in Hp. injection Hp as _ Hp. by exists pre, post.
Qed.

(** * Categorizer *)

Lemma categorizeExpense_unfold (lineItems : list BackendLineItem) :
  categorizeExpense lineItems = first_category category_table (search_string lineItems).
Proof.
  unfold categorizeExpense. fold (search_string lineItems).
  cbn [first_category category_table existsb].
  rewrite !orb_false_r, !orb_assoc. reflexivity.
Qed.

Lemma first_category_hit (table : list (string * list string)) (search : string) :
  forall earlier tag keywords later,
    table = earlier ++ (tag, keywords) :: later ->
    Forall (fun row => existsb (includes search) row.2 = false) earlier ->
    existsb (includes search) keywords = true ->
    first_category table search = tag.
Proof.
  intros earlier tag keywords later -> Hnone Hhit.
  induction Hnone as [|[tag' kws'] earlier Hrow _ IH]; simpl in *.
  - by rewrite Hhit.
  - by rewrite Hrow.
Qed.

Lemma first_category_miss (table : list (string * list string)) (search : string) :
  Forall (fun row => existsb (includes search) row.2 = false) table ->
  first_category table search = "Other".
Proof.
  induction 1 as [|[tag kws] table Hrow _ IH]; simpl in *; [done|].
  by rewrite Hrow.
Qed.

(** C7. [categorizeExpense] is the table-driven categoriser of the
    specification: on the search string (the case-folded descriptions,
    joined by blanks) it returns the first category, in the order Dining,
    Groceries, Transport, Electronics, Shopping, Utilities, one of whose
    keywords occurs in it as a substring, and ["Other"] when no keyword
    occurs.  Being a function it gives the same answer each time; on
    descriptions "grocery run" and "snacks" that answer is "Groceries",
    whatever the other fields of the two items are. *)
Theorem categorizeExpense_first_matching_category (lineItems : list BackendLineItem) :
  categorizeExpense lineItems = categorize lineItems
  /\ (forall earlier tag keywords later,
        category_table = earlier ++ (tag, keywords) :: later ->
        (forall row keyword, row ∈ earlier -> keyword ∈ row.2 ->
                             ~ substring_of keyword (search_string lineItems)) ->
        (exists keyword, keyword ∈ keywords
                         /\ substring_of keyword (search_string lineItems)) ->
        categorizeExpense lineItems = tag)
  /\ ((forall row keyword, row ∈ category_table -> keyword ∈ row.2 ->
                           ~ substring_of keyword (search_string lineItems)) ->
      categorizeExpense lineItems = "Other")
  /\ (map description lineItems = ["grocery run"; "snacks"] ->
      categorizeExpense lineItems = "Groceries").
Proof.
  assert (Hnone : forall rows : list (string * list string),
            (forall row keyword, row ∈ rows -> keyword ∈ row.2 ->
                                 ~ substring_of keyword (search_string lineItems)) ->
            Forall (fun row => existsb (includes (search_string lineItems)) row.2 = false) rows).
  { intros rows Hrows. apply Forall_forall. intros row Hrow.
    apply not_true_is_false. rewrite existsb_exists.
    intros (keyword & Hin & Hinc). apply includes_spec in Hinc.
    apply (Hrows row keyword); [done | by apply list_elem_of_In | done]. }
  rewrite categorizeExpense_unfold. repeat split.
  - intros earlier tag keywords later Htable Hearlier (keyword & Hin & Hsub).
    eapply first_category_hit; [exact Htable | by apply Hnone |].
    apply existsb_exists. exists keyword.
    split; [by apply list_elem_of_In | by apply includes_spec].
  - intros Hall. apply first_category_miss. by apply Hnone.
  - intros Hdesc. unfold search_string.
    rewrite <- (map_map description toLowerCase), Hdesc. reflexivity.
Qed.

(** The table really has six rows that can each win: one input per
    category, and one for ["Other"]. *)
Lemma categorizeExpense_examples :
  map (fun d => categorizeExpense [described d])
      ["Fast Food"; "Supermarket"; "Petrol"; "Phone"; "Clothes"; "Water bill"; "Rent"]
  = ["Dining"; "Groceries"; "Transport"; "Electronics"; "Shopping"; "Utilities"; "Other"]
  /\ categorizeExpense [described "grocery and food"] = "Dining".
Proof. repeat split; vm_compute; reflexivity. Qed.

(** Witness for C7: the items with descriptions "grocery run" and
    "snacks". *)
Lemma categorizeExpense_first_matching_category_witness :
  categorizeExpense [described "grocery run"; described "snacks"] = "Groceries".
Proof.
  apply (categorizeExpense_first_matching_category
           [described "grocery run"; described "snacks"]).
  reflexivity.
Defined.

(** * Canonicalizer *)

Lemma occurrences_cons (x y : string) (l : list string) :
  occurrences x (y :: l) = (if bool_decide (y = x) then 1 else 0) + occurrences x l.
Proof. unfold occurrences. simpl. by case_bool_decide. Qed.

Lemma occurrences_zero (x : string) (l : list string) :
  occurrences x l = 0 <-> x ∉ l.
Proof.
  induction l as [|y l IH].
  - split; [intros _; apply not_elem_of_nil | done].
  - rewrite occurrences_cons, not_elem_of_cons, <- IH.
    case_bool_decide as Hy; split.
    + lia.
    + intros [Hne _]. by destruct Hne.
    + intros H0. split; [congruence | lia].
    + intros [_ H0]. lia.
Qed.

(** With line items present the vendor extraction always returns. *)
Lemma extractVendorName_total (originalText : string) (items : list BackendLineItem) :
  exists vendor, extractVendorName originalText (Some items) = Ok vendor.
Proof.
  unfold extractVendorName.
  destruct (first_vendor originalText vendorPatterns); [by eexists|].
  simpl. destruct items; [by eexists|].
  case (String.length _ <? 30); by eexists.
Qed.

(** What the Canonicalizer returns when line items are present. *)
Lemma convert_with_items (be : BackendExpense) (items : list BackendLineItem) :
  line_items (parsed_data be) = Some items ->
  exists e, convertBackendExpenseToFrontend be = Ok e
            /\ totalAmount e = total_amount (parsed_data be)
            /\ (type e = shared \/ type e = personal)
            /\ (type e = shared ->
                members e = Some ("You" :: cleanParticipants be)
                /\ sharedDetails e = Some {| sd_members := "You" :: cleanParticipants be;
                                            paidBy := "You" |})
            /\ (type e = personal -> members e = None /\ sharedDetails e = None)
            /\ (type e = shared <->
                match is_shared (parsed_data be) with
                | Some explicit => explicit = true
                | None => cleanParticipants be <> []
                end).
Proof.
  intros Hitems. unfold convertBackendExpenseToFrontend. rewrite Hitems.
  destruct (extractVendorName_total (original_text be) items) as [vendor ->].
  cbn [bind defined]. fold (cleanParticipants be).
  set (isShared := match is_shared (parsed_data be) with
                   | Some explicit => explicit
                   | None => 0 <? length (cleanParticipants be)
                   end).
  assert (HisShared : isShared = true <->
            match is_shared (parsed_data be) with
            | Some explicit => explicit = true
            | None => cleanParticipants be <> []
            end).
  { subst isShared. destruct (is_shared (parsed_data be)); [done|].
    rewrite Nat.ltb_lt. destruct (cleanParticipants be); simpl; split; (done || lia). }
  eexists. split; [reflexivity|].
  destruct isShared; cbn.
  - split; [done|]. split; [by left|]. split; [done|]. split; [done|].
    split; [intros _; by apply HisShared | done].
  - split; [done|]. split; [by right|]. split; [done|]. split; [done|].
    split; [done | intros Hs; by apply HisShared in Hs].
Qed.

(** Without line items the Canonicalizer throws, wherever the vendor
    extraction got to. *)
Lemma convert_without_items (be : BackendExpense) :
  line_items (parsed_data be) = None ->
  convertBackendExpenseToFrontend be = Throw TypeError.
Proof.
  intros Hitems. unfold convertBackendExpenseToFrontend, extractVendorName.
  rewrite Hitems. by destruct (first_vendor _ _).
Qed.

Lemma convert_ok_has_items (be : BackendExpense) (e : Expense) :
  convertBackendExpenseToFrontend be = Ok e ->
  exists items, line_items (parsed_data be) = Some items.
Proof.
  intros Hok. destruct (line_items (parsed_data be)) as [items|] eqn:Hitems.
  - by exists items.
  - by rewrite (convert_without_items be Hitems) in Hok.
Qed.

(** The member lists of a returned expense, by its type. *)
Lemma convert_type_and_members_aux (be : BackendExpense) (e : Expense) :
  convertBackendExpenseToFrontend be = Ok e ->
  (type e = personal -> members e = None)
  /\ (type e = shared ->
      members e = Some ("You" :: cleanParticipants be)
      /\ sharedDetails e = Some {| sd_members := "You" :: cleanParticipants be;
                                  paidBy := "You" |}).
Proof.
  intros Hok.
  destruct (convert_ok_has_items be e Hok) as [items Hitems].
  destruct (convert_with_items be items Hitems)
    as (e' & Hok' & _ & _ & Hshared & Hpersonal & _).
  rewrite Hok in Hok'. injection Hok' as <-.
  split; [intros Hp; by apply Hpersonal | exact Hshared].
Qed.

(** C1, as amended.  Whenever the Canonicalizer returns an expense, its
    [type] is personal or shared; a shared expense has as [members] (and as
    the members of its [sharedDetails]) the list that starts with "You" and
    continues with the clean participants, so the list is not empty and
    "You" is its first entry; "You" occurs in it exactly once if and only
    if the clean participants do not themselves contain "You".  A personal
    expense has no member list. *)
Theorem convert_type_and_members (be : BackendExpense) (e : Expense) :
  convertBackendExpenseToFrontend be = Ok e ->
  (type e = personal \/ type e = shared)
  /\ (type e = personal -> members e = None)
  /\ (type e = shared ->
      exists ms, members e = Some ms
                 /\ option_map sd_members (sharedDetails e) = Some ms
                 /\ ms = "You" :: cleanParticipants be
                 /\ ms <> []
                 /\ head ms = Some "You"
                 /\ (occurrences "You" ms = 1 <-> "You" ∉ cleanParticipants be)).
Proof.
  intros Hok.
  destruct (convert_ok_has_items be e Hok) as [items Hitems].
  destruct (convert_with_items be items Hitems)
    as (e' & Hok' & _ & Htype & Hshared & Hpersonal & _).
  rewrite Hok in Hok'. injection Hok' as <-.
  split; [tauto|]. split; [intros Hp; by apply Hpersonal|].
  intros Hs. destruct (Hshared Hs) as [Hm Hd].
  exists ("You" :: cleanParticipants be).
  rewrite Hm, Hd. repeat split; try done.
  - rewrite occurrences_cons, bool_decide_eq_true_2 by done.
    intros Hone. apply occurrences_zero. lia.
  - intros Hnot. apply occurrences_zero in Hnot.
    rewrite occurrences_cons, bool_decide_eq_true_2 by done. lia.
Qed.

(** Witness for C1: the sharing-detection example. *)
Lemma convert_type_and_members_witness :
  exists e, convertBackendExpenseToFrontend parse_rohit_priya = Ok e
            /\ type e = shared
            /\ members e = Some ["You"; "Rohit"; "Priya"]
            /\ occurrences "You" ["You"; "Rohit"; "Priya"] = 1.
Proof.
  destruct (convertBackendExpenseToFrontend parse_rohit_priya) as [e|] eqn:Hok;
    [|by vm_compute in Hok].
  exists e. split; [reflexivity|].
  destruct (convert_type_and_members parse_rohit_priya e Hok) as (_ & _ & Hshared).
  assert (Htype : type e = shared) by (vm_compute in Hok; by injection Hok as <-).
  destruct (Hshared Htype) as (ms & Hm & _ & -> & _).
  split; [exact Htype|]. split; [exact Hm | reflexivity].
Defined.

(** C1 as stated fails: when the parse itself names the user "You", the
    returned shared expense lists "You" twice. *)
Lemma convert_lists_You_twice :
  exists e ms, convertBackendExpenseToFrontend parse_naming_you = Ok e
               /\ type e = shared
               /\ members e = Some ms
               /\ ms = ["You"; "You"; "Priya"]
               /\ occurrences "You" ms = 2.
Proof. do 2 eexists. repeat split; vm_compute; reflexivity. Qed.

(** C2, as amended.  The Canonicalizer throws (a [TypeError], raised by
    the first use of the missing array) exactly when [line_items] is
    absent, and then returns no expense.  It never looks at
    [total_amount]: whenever [line_items] is present it returns an expense
    whose [totalAmount] is the parse's [total_amount], finite or not. *)
Theorem convert_fails_iff_no_line_items (be : BackendExpense) :
  (convertBackendExpenseToFrontend be = Throw TypeError
   <-> line_items (parsed_data be) = None)
  /\ (line_items (parsed_data be) = None ->
      forall e, convertBackendExpenseToFrontend be <> Ok e)
  /\ (forall items, line_items (parsed_data be) = Some items ->
      exists e, convertBackendExpenseToFrontend be = Ok e
                /\ totalAmount e = total_amount (parsed_data be)).
Proof.
  split; [split|split].
  - intros Hthrow. destruct (line_items (parsed_data be)) as [items|] eqn:Hitems; [|done].
    destruct (convert_with_items be items Hitems) as (e & Hok & _).
    by rewrite Hok in Hthrow.
  - apply convert_without_items.
  - intros Hnone e Hok. by rewrite (convert_without_items be Hnone) in Hok.
  - intros items Hitems.
    destruct (convert_with_items be items Hitems) as (e & Hok & Htotal & _).
    by exists e.
Qed.

(** Witness for C2: a parse without line items throws; the same parse with
    an empty item list and an infinite total is converted. *)
Lemma convert_fails_iff_no_line_items_witness :
  convertBackendExpenseToFrontend parse_without_items = Throw TypeError
  /\ exists e, convertBackendExpenseToFrontend
                 (stored (a_parse [] None None (Some []) PosInfinity)) = Ok e
               /\ totalAmount e = PosInfinity.
Proof.
  split.
  - apply (convert_fails_iff_no_line_items parse_without_items). reflexivity.
  - apply (proj2 (proj2 (convert_fails_iff_no_line_items
             (stored (a_parse [] None None (Some []) PosInfinity)))) []).
    reflexivity.
Defined.

(** C2 as stated fails: a total that is not a finite number is accepted,
    and the expense that comes back carries it. *)
Lemma convert_accepts_nan_total :
  isFinite (total_amount (parsed_data parse_nan_total)) = false
  /\ line_items (parsed_data parse_nan_total) <> None
  /\ exists e, convertBackendExpenseToFrontend parse_nan_total = Ok e
               /\ totalAmount e = NaN.
Proof.
  split; [reflexivity|]. split; [done|].
  eexists. split; vm_compute; reflexivity.
Qed.

(** ** Sharing status *)

(** [convertBackendExpenseToFrontend] takes an explicit [is_shared] as it
    is, also when it contradicts the participant list. *)
Lemma convert_uses_explicit_is_shared (be : BackendExpense) (e : Expense)
    (explicit : bool) :
  is_shared (parsed_data be) = Some explicit ->
  convertBackendExpenseToFrontend be = Ok e ->
  type e = if explicit then shared else personal.
Proof.
  intros Hflag Hok.
  destruct (convert_ok_has_items be e Hok) as [items Hitems].
  destruct (convert_with_items be items Hitems) as (e' & Hok' & _ & Htype & _ & _ & Hiff).
  rewrite Hok in Hok'. injection Hok' as <-. rewrite Hflag in Hiff.
  destruct explicit; [by apply Hiff|].
  destruct Htype as [Hs|Hp]; [by apply Hiff in Hs | done].
Qed.

(** Only without [is_shared] does it look at the clean participants. *)
Lemma convert_falls_back_on_participants (be : BackendExpense) (e : Expense) :
  is_shared (parsed_data be) = None ->
  convertBackendExpenseToFrontend be = Ok e ->
  type e = if bool_decide (cleanParticipants be = []) then personal else shared.
Proof.
  intros Hflag Hok.
  destruct (convert_ok_has_items be e Hok) as [items Hitems].
  destruct (convert_with_items be items Hitems) as (e' & Hok' & _ & Htype & _ & _ & Hiff).
  rewrite Hok in Hok'. injection Hok' as <-. rewrite Hflag in Hiff.
  case_bool_decide as Hclean.
  - destruct Htype as [Hs|Hp]; [by apply Hiff in Hs | done].
  - by apply Hiff.
Qed.

(** The sharing-detection example: clean participants Rohit and Priya, no
    explicit flag. *)
Lemma convert_sharing_detection :
  exists e, convertBackendExpenseToFrontend parse_rohit_priya = Ok e
            /\ is_shared (parsed_data parse_rohit_priya) = None
            /\ type e = shared
            /\ members e = Some ["You"; "Rohit"; "Priya"].
Proof. eexists. repeat split; vm_compute; reflexivity. Qed.

Lemma convert_explicit_false_example :
  exists e, convertBackendExpenseToFrontend
              (stored (a_parse ["Priya"] (Some ["Priya"]) (Some false)
                               (Some [described "pizza"]) (num 900))) = Ok e
            /\ type e = personal /\ members e = None.
Proof. eexists. repeat split; vm_compute; reflexivity. Qed.

Lemma mock_cleanParticipants (authToken text now : string)
    (response : ParseExpenseResponse) :
  cleanParticipants (mockBackendExpense authToken text now response)
  = cleanParticipantsOf (r_clean_participants response) (r_participants response).
Proof. reflexivity. Qed.

(** C5.  [parseExpenseFromText] does not hand the upstream [is_shared] to
    the Canonicalizer: it first computes [response.is_shared || (clean
    participants).length > 0], so an explicit [false] next to a non-empty
    participant list reaches [convertBackendExpenseToFrontend] as [true]
    and the expense comes back shared, with "You" and the participants as
    members. *)
Theorem parseExpenseFromText_overrides_explicit_false
    (authToken text now : string) (response : ParseExpenseResponse) (e : Expense) :
  r_is_shared response = Some false ->
  cleanParticipantsOf (r_clean_participants response) (r_participants response) <> [] ->
  parseExpenseFromText authToken text now response = Ok e ->
  type e = shared
  /\ members e = Some ("You" :: cleanParticipantsOf (r_clean_participants response)
                                                    (r_participants response)).
Proof.
  intros Hflag Hclean Hok. unfold parseExpenseFromText in Hok.
  set (be := mockBackendExpense authToken text now response) in *.
  assert (Hshared : is_shared (parsed_data be) = Some true).
  { subst be. cbn. rewrite Hflag.
    destruct (cleanParticipantsOf _ _); [done | reflexivity]. }
  pose proof (convert_uses_explicit_is_shared be e true Hshared Hok) as Htype.
  split; [exact Htype|].
  destruct (convert_type_and_members_aux be e Hok) as (_ & Hs).
  destruct (Hs Htype) as [Hm _]. exact Hm.
Qed.

(** Witness for C5: the answer [{ is_shared: false, clean_participants:
    ["Priya"], ... }]. *)
Lemma parseExpenseFromText_overrides_explicit_false_witness :
  r_is_shared response_explicit_false = Some false
  /\ exists e, parseExpenseFromText "user-one" "Dinner" "2024-01-02T10:00:00.000Z"
                 response_explicit_false = Ok e
               /\ type e = shared
               /\ members e = Some ["You"; "Priya"].
Proof.
  split; [reflexivity|].
  destruct (parseExpenseFromText "user-one" "Dinner" "2024-01-02T10:00:00.000Z"
              response_explicit_false) as [e|] eqn:Hok; [|by vm_compute in Hok].
  exists e. split; [reflexivity|].
  apply (parseExpenseFromText_overrides_explicit_false
           "user-one" "Dinner" "2024-01-02T10:00:00.000Z" response_explicit_false e);
    [reflexivity | done | exact Hok].
Defined.

(** * Participant totals *)



Lemma Qc_of_Z_zero : Qc_of_Z 0 = Q2Qc 0.
Proof. by apply Qc_is_canon. Qed.



(** On a finite total, [total || 0] is the total itself. *)
Lemma or_else_finite (a : number) : isFinite a = true -> or_else a (num 0) = a.
Proof.
  destruct a as [q| | |]; try done. intros _. unfold or_else, truthy.
  case_bool_decide as Hq; simpl; [by rewrite Hq | done].
Qed.
















Lemma calculateParticipantTotals_example_values :
  sum_of_amounts [a_split "me" 600; a_split "Priya" 400] = num 1000
  /\ calculateParticipantTotals
       [split_item 1000 (Some [a_split "me" 600; a_split "Priya" 400]);
        split_item 250 (Some [])] !! "Amit" = None.
Proof. split; vm_compute; [f_equal; by apply Qc_is_canon | reflexivity]. Qed.

(** C8, as amended.  The alias is the exact string "me": a split named
    "me" is added to the total kept under "You", and a split of any other
    name, the other spellings of "me" included, is added to the total kept
    under that very name and leaves the total of "You" alone (unless the
    name is "You" itself). *)
Theorem add_split_alias_is_exact (m : gmap string number) (split : Split) :
  (participant split = "me" ->
   add_split m split !! "You"
   = Some (add (current_total m "You") (split_amount split)))
  /\ (participant split <> "me" ->
      add_split m split !! participant split
      = Some (add (current_total m (participant split)) (split_amount split))
      /\ (participant split <> "You" -> add_split m split !! "You" = m !! "You")).
Proof.
  unfold add_split, canonical. split.
  - intros ->. rewrite bool_decide_eq_true_2 by done. apply lookup_insert_eq.
  - intros Hne. rewrite bool_decide_eq_false_2 by done. split.
    + apply lookup_insert_eq.
    + intros Hyou. by apply lookup_insert_ne.
Qed.

(** Witness for C8: "me" goes to "You", "Me" stays "Me". *)
Lemma add_split_alias_is_exact_witness :
  add_split ∅ (a_split "me" 500) !! "You" = Some (add (current_total ∅ "You") (num 500))
  /\ add_split ∅ (a_split "Me" 500) !! "You" = None.
Proof.
  split.
  - apply (proj1 (add_split_alias_is_exact ∅ (a_split "me" 500))). reflexivity.
  - rewrite <- (lookup_empty (M := gmap string) (A := number) "You").
    apply (proj2 (add_split_alias_is_exact ∅ (a_split "Me" 500))); done.
Defined.

(** C8 as stated fails: "Me" equals "me" up to case, and its amount is not
    accumulated under "You" but under "Me". *)
Lemma calculateParticipantTotals_Me_not_aliased :
  toLowerCase "Me" = "me"
  /\ calculateParticipantTotals [split_item 500 (Some [a_split "Me" 500])] !! "You" = None
  /\ calculateParticipantTotals [split_item 500 (Some [a_split "Me" 500])] !! "Me"
     = Some (num 500).
Proof.
  split; [reflexivity|]. split; [reflexivity|].
  vm_compute. do 2 f_equal. by apply Qc_is_canon.
Qed.

(** * Receipt handler *)

(** C10.  When the parsed receipt has more than one member,
    [handleReceiptParsed] appends to the shared spaces, whatever they
    already hold, one new space with the id just drawn, the name
    "<vendorName> Bill" and the receipt's members, and links the stored
    expense to it; the existing spaces are not consulted.  So if a space
    with the same member set was there before, two spaces with equal
    member sets coexist afterwards. *)
Theorem handleReceiptParsed_always_appends (uuid : string) (parsedData : Expense)
    (st : AppState) (ms : list string) :
  members parsedData = Some ms ->
  1 < length ms ->
  let st' := handleReceiptParsed uuid parsedData st in
  sharedSpaces st' = sharedSpaces st ++
                     [ {| space_id := uuid;
                          name := vendorName parsedData +:+ " Bill";
                          space_members := ms |} ]
  /\ (exists e, expenses st' = expenses st ++ [e]
                /\ type e = shared /\ sharedSpaceId e = Some uuid)
  /\ (forall existing,
        existing ∈ sharedSpaces st ->
        member_set (space_members existing) = member_set ms ->
        has_duplicate_space (sharedSpaces st')).
Proof.
  intros Hms Hlen st'. subst st'. unfold handleReceiptParsed, has_several_members.
  rewrite Hms. apply Nat.ltb_lt in Hlen. rewrite Hlen. cbn.
  split; [reflexivity|]. split; [by eexists|].
  intros existing Hin Hset.
  apply list_elem_of_lookup in Hin as [i Hi].
  exists i, (length (sharedSpaces st)), existing,
    {| space_id := uuid; name := vendorName parsedData +:+ " Bill"; space_members := ms |}.
  split; [by eapply lookup_lt_Some|].
  split; [by apply lookup_app_l_Some|].
  split; [|exact Hset].
  rewrite lookup_app_r by lia. by rewrite Nat.sub_diag.
Qed.

(** Witness for C10: the same receipt handed in twice. *)
Lemma handleReceiptParsed_always_appends_witness :
  has_duplicate_space
    (sharedSpaces
       (handleReceiptParsed "id-2" (an_expense "Big Bazaar" personal (Some ["You"; "Priya"]))
          (handleReceiptParsed "id-1" (an_expense "Big Bazaar" personal (Some ["You"; "Priya"]))
             empty_state))).
Proof.
  refine (proj2 (proj2 (handleReceiptParsed_always_appends
            "id-2" (an_expense "Big Bazaar" personal (Some ["You"; "Priya"]))
            (handleReceiptParsed "id-1"
               (an_expense "Big Bazaar" personal (Some ["You"; "Priya"])) empty_state)
            ["You"; "Priya"] eq_refl _))
          {| space_id := "id-1"; name := "Big Bazaar Bill";
             space_members := ["You"; "Priya"] |} _ eq_refl).
  - simpl. lia.
  - vm_compute. apply list_elem_of_here.
Defined.

(** With at most one member nothing is appended and the expense is
    personal. *)
Lemma handleReceiptParsed_personal (uuid : string) (parsedData : Expense) (st : AppState) :
  has_several_members parsedData = None ->
  sharedSpaces (handleReceiptParsed uuid parsedData st) = sharedSpaces st.
Proof. intros Hnone. unfold handleReceiptParsed. by rewrite Hnone. Qed.

(** * Percentages *)

Lemma sign_Eq (q : Qc) : sign q = Eq <-> q = Qc_of_Z 0.
Proof. unfold sign. symmetry. apply Qceq_alt. Qed.


(** Division by a non-zero finite number is the exact quotient. *)
Lemma div_finite (t T : Qc) :
  T <> Qc_of_Z 0 -> div (Finite t) (Finite T) = Finite (t / T).
Proof.
  intros HT. unfold div. destruct (sign T) eqn:Hs; [|done..].
  by apply sign_Eq in Hs.
Qed.






(** * Shared spaces *)

(** On member lists without repetition the test of [find] is equality of
    member sets. *)
Lemma same_members_spec (ms : list string) (space : SharedSpace) :
  NoDup ms -> NoDup (space_members space) ->
  same_members ms space = true
  <-> member_set (space_members space) = member_set ms.
Proof.
  intros Hms Hspace. unfold same_members, member_set.
  rewrite andb_true_iff, Nat.eqb_eq, forallb_forall. split.
  - intros [Hlen Hall].
    apply list_to_set_perm_L, submseteq_length_Permutation; [|lia].
    apply NoDup_submseteq; [done|]. intros x Hx.
    apply list_elem_of_In, Hall in Hx. by apply bool_decide_eq_true in Hx.
  - intros Hset.
    assert (Hperm : space_members space ≡ₚ ms).
    { apply NoDup_Permutation; [done..|]. intros x.
      by rewrite <- !(elem_of_list_to_set (C := gset string)), Hset. }
    split; [by rewrite Hperm|]. intros x Hx.
    apply bool_decide_eq_true. rewrite <- Hperm. by apply list_elem_of_In.
Qed.

Lemma existsb_same_members (ms : list string) (spaces : list SharedSpace) :
  NoDup ms -> Forall (fun space => NoDup (space_members space)) spaces ->
  existsb (same_members ms) spaces = true <-> member_set ms ∈ member_set_list spaces.
Proof.
  intros Hms Hspaces. unfold member_set_list.
  rewrite existsb_exists, list_elem_of_fmap. split.
  - intros (space & Hin & Hsame). exists space. apply list_elem_of_In in Hin.
    split; [|done]. symmetry. apply same_members_spec; [done| |done].
    by eapply Forall_forall in Hspaces.
  - intros (space & Heq & Hin). exists space.
    split; [by apply list_elem_of_In|].
    apply same_members_spec; [done| |done]. by eapply Forall_forall in Hspaces.
Qed.

Section Grouping.

Variable randomUUID : nat -> string.

(** The spaces after one step, in terms of the expense's member list. *)
Lemma group_step_spaces (spaces : list SharedSpace) (calls : nat) (e : Expense) :
  fst (group_step randomUUID (spaces, calls) e)
  = match shared_member_list e with
    | Some ms =>
        if existsb (same_members ms) spaces then spaces
        else spaces ++ [ {| space_id := fst (space_id_for randomUUID e calls);
                            name := vendorName e +:+ " Group";
                            space_members := ms |} ]
    | None => spaces
    end.
Proof.
  unfold group_step, shared_member_list.
  destruct (type e); [done|]. destruct (members e) as [ms|]; [|done].
  destruct (existsb _ _); [done|]. by destruct (space_id_for _ _ _).
Qed.

(** One step keeps the spaces' member lists free of repetition and their
    member sets pairwise different, and adds the expense's member set to
    the family. *)
Lemma group_step_invariant (spaces : list SharedSpace) (calls : nat) (e : Expense) :
  distinct_members e ->
  Forall (fun space => NoDup (space_members space)) spaces ->
  NoDup (member_set_list spaces) ->
  let spaces' := fst (group_step randomUUID (spaces, calls) e) in
  Forall (fun space => NoDup (space_members space)) spaces'
  /\ NoDup (member_set_list spaces')
  /\ member_sets spaces' = member_sets spaces ∪ shared_sets [e].
Proof.
  intros He Hspaces Hsets spaces'. subst spaces'.
  rewrite group_step_spaces. unfold shared_sets, member_sets. simpl.
  destruct (shared_member_list e) as [ms|] eqn:Hms; simpl.
  - pose proof (He ms Hms) as Hnodup.
    destruct (existsb (same_members ms) spaces) eqn:Hfound.
    + split; [done|]. split; [done|].
      apply existsb_same_members in Hfound; [|done..].
      apply (elem_of_list_to_set (C := gset (gset string))) in Hfound.
      rewrite (right_id_L ∅ (∪)). apply set_eq. intros x.
      rewrite elem_of_union, elem_of_singleton.
      split; [by left | by intros [Hx | ->]].
    + assert (Hnew : member_set ms ∉ member_set_list spaces).
      { intros Hin. apply existsb_same_members in Hin; [|done..]. congruence. }
      split; [apply Forall_app; split; [done | by constructor]|].
      unfold member_set_list in *. rewrite map_app. simpl. split.
      * apply NoDup_app. split; [done|]. split; [|apply NoDup_singleton].
        intros x Hx Hx'. apply list_elem_of_singleton in Hx'. by subst.
      * rewrite list_to_set_app_L. simpl.
        by rewrite (right_id_L ∅ (∪)).
  - split; [done|]. split; [done|]. by rewrite (right_id_L ∅ (∪)).
Qed.

Lemma shared_sets_cons (e : Expense) (l : list Expense) :
  shared_sets (e :: l) = shared_sets [e] ∪ shared_sets l.
Proof.
  unfold shared_sets. simpl. destruct (shared_member_list e); simpl.
  - by rewrite (right_id_L ∅ (∪)).
  - by rewrite (left_id_L ∅ (∪)).
Qed.

Lemma group_fold_invariant (l : list Expense) (spaces : list SharedSpace) (calls : nat) :
  Forall distinct_members l ->
  Forall (fun space => NoDup (space_members space)) spaces ->
  NoDup (member_set_list spaces) ->
  let spaces' := fst (fold_left (group_step randomUUID) l (spaces, calls)) in
  Forall (fun space => NoDup (space_members space)) spaces'
  /\ NoDup (member_set_list spaces')
  /\ member_sets spaces' = member_sets spaces ∪ shared_sets l.
Proof.
  intros Hl. revert spaces calls.
  induction Hl as [|e l He _ IH]; intros spaces calls Hspaces Hsets;
    cbn [fold_left].
  - split; [done|]. split; [done|].
    unfold shared_sets. simpl. by rewrite (right_id_L ∅ (∪)).
  - destruct (group_step_invariant spaces calls e He Hspaces Hsets) as (H1 & H2 & H3).
    destruct (group_step randomUUID (spaces, calls) e) as [spaces1 calls1].
    destruct (IH spaces1 calls1 H1 H2) as (H4 & H5 & H6).
    split; [done|]. split; [done|].
    rewrite H6. simpl in H3. rewrite H3, (shared_sets_cons e l).
    by rewrite (assoc_L (∪)).
Qed.

(** The grouping yields exactly the member sets of the shared expenses,
    each once. *)
Lemma groupSharedSpaces_member_sets (l : list Expense) :
  Forall distinct_members l ->
  NoDup (member_set_list (groupSharedSpaces randomUUID l))
  /\ member_sets (groupSharedSpaces randomUUID l) = shared_sets l.
Proof.
  intros Hl. unfold groupSharedSpaces.
  destruct (group_fold_invariant l [] 0 Hl) as (_ & Hnodup & Hsets);
    [constructor | constructor |].
  split; [done|]. rewrite Hsets. unfold member_sets. simpl.
  by rewrite (left_id_L ∅ (∪)).
Qed.

End Grouping.

Lemma shared_sets_permutation (l1 l2 : list Expense) :
  l1 ≡ₚ l2 -> shared_sets l1 = shared_sets l2.
Proof. intros Hperm. unfold shared_sets. by rewrite Hperm. Qed.

(** C9, as amended.  Provided no shared expense lists a member twice, the
    shared spaces derived from a collection of expenses have exactly the
    member sets of its shared expenses, each set at exactly one space; so
    any permutation of the collection, any repetition of the computation
    and any ids drawn give the same family of member sets.  Two shared
    expenses whose members are "You", "Priya" and "Rohit" in any order
    end in one space, and an expense with members "You" and "Amit" in a
    second one. *)
Theorem groupSharedSpaces_order_insensitive
    (uuids1 uuids2 : nat -> string) (l1 l2 : list Expense) :
  Forall distinct_members l1 ->
  l1 ≡ₚ l2 ->
  member_sets (groupSharedSpaces uuids1 l1) = member_sets (groupSharedSpaces uuids2 l2)
  /\ member_sets (groupSharedSpaces uuids1 l1) = shared_sets l1
  /\ NoDup (member_set_list (groupSharedSpaces uuids1 l1))
  /\ (forall v1 v2 v3 ms1 ms2,
        ms1 ≡ₚ ["You"; "Priya"; "Rohit"] ->
        ms2 ≡ₚ ["You"; "Priya"; "Rohit"] ->
        groupSharedSpaces uuids1
          [an_expense v1 shared (Some ms1); an_expense v2 shared (Some ms2);
           an_expense v3 shared (Some ["You"; "Amit"])]
        = [ {| space_id := uuids1 0; name := v1 +:+ " Group"; space_members := ms1 |};
            {| space_id := uuids1 1; name := v3 +:+ " Group";
               space_members := ["You"; "Amit"] |} ]).
Proof.
  intros Hl1 Hperm.
  assert (Hl2 : Forall distinct_members l2) by by rewrite <- Hperm.
  destruct (groupSharedSpaces_member_sets uuids1 l1 Hl1) as [Hnodup Hsets1].
  destruct (groupSharedSpaces_member_sets uuids2 l2 Hl2) as [_ Hsets2].
  split; [by rewrite Hsets1, Hsets2, (shared_sets_permutation l1 l2)|].
  split; [done|]. split; [done|].
  intros v1 v2 v3 ms1 ms2 Hms1 Hms2.
  assert (Hfriends : NoDup ["You"; "Priya"; "Rohit"]) by compute_done.
  assert (Hsame : same_members ms2
                    {| space_id := uuids1 0; name := v1 +:+ " Group";
                       space_members := ms1 |} = true).
  { apply same_members_spec; simpl; [by rewrite Hms2 | by rewrite Hms1 |].
    unfold member_set. by rewrite Hms1, Hms2. }
  assert (Hother : same_members ["You"; "Amit"]
                     {| space_id := uuids1 0; name := v1 +:+ " Group";
                        space_members := ms1 |} = false).
  { unfold same_members. simpl.
    by rewrite (Permutation_length Hms1). }
  unfold groupSharedSpaces. cbn [fold_left].
  unfold group_step at 3.
  cbn [type members an_expense existsb space_id_for sharedSpaceId app vendorName].
  unfold group_step at 2. cbn [type members an_expense existsb].
  rewrite Hsame. cbn [orb].
  unfold group_step. cbn [type members an_expense existsb].
  rewrite Hother. reflexivity.
Qed.

(** Witness for C9: three bills of the same three friends and one with
    Amit, in two orders. *)
Lemma groupSharedSpaces_order_insensitive_witness :
  member_sets
    (groupSharedSpaces numbered_uuid
       [an_expense "Mart" shared (Some ["You"; "Priya"; "Rohit"]);
        an_expense "Cafe" shared (Some ["Rohit"; "You"; "Priya"]);
        an_expense "Taxi" shared (Some ["You"; "Amit"])])
  = member_sets
      (groupSharedSpaces numbered_uuid
         [an_expense "Taxi" shared (Some ["You"; "Amit"]);
          an_expense "Cafe" shared (Some ["Rohit"; "You"; "Priya"]);
          an_expense "Mart" shared (Some ["You"; "Priya"; "Rohit"])]).
Proof.
  apply (groupSharedSpaces_order_insensitive numbered_uuid numbered_uuid
           [an_expense "Mart" shared (Some ["You"; "Priya"; "Rohit"]);
            an_expense "Cafe" shared (Some ["Rohit"; "You"; "Priya"]);
            an_expense "Taxi" shared (Some ["You"; "Amit"])]
           [an_expense "Taxi" shared (Some ["You"; "Amit"]);
            an_expense "Cafe" shared (Some ["Rohit"; "You"; "Priya"]);
            an_expense "Mart" shared (Some ["You"; "Priya"; "Rohit"])]).
  - repeat constructor; intros ms [= <-]; compute_done.
  - apply (Permutation_rev
             [an_expense "Mart" shared (Some ["You"; "Priya"; "Rohit"]);
              an_expense "Cafe" shared (Some ["Rohit"; "You"; "Priya"]);
              an_expense "Taxi" shared (Some ["You"; "Amit"])]).
Defined.

(** C9 as stated fails when a member list repeats a name: the two orders
    of the same two expenses give one space and two spaces, with different
    families of member sets; and a list that repeats a name gets a space
    of its own next to the space of the same set. *)
Lemma groupSharedSpaces_order_matters :
  [expense_you_twice; expense_three_friends]
    ≡ₚ [expense_three_friends; expense_you_twice]
  /\ map space_members
         (groupSharedSpaces numbered_uuid [expense_you_twice; expense_three_friends])
     = [["You"; "You"; "Priya"]]
  /\ map space_members
         (groupSharedSpaces numbered_uuid [expense_three_friends; expense_you_twice])
     = [["You"; "Priya"; "Rohit"]; ["You"; "You"; "Priya"]]
  /\ member_sets
       (groupSharedSpaces numbered_uuid [expense_you_twice; expense_three_friends])
     <> member_sets
          (groupSharedSpaces numbered_uuid [expense_three_friends; expense_you_twice])
  /\ has_duplicate_space
       (groupSharedSpaces numbered_uuid
          [an_expense "Cafe" shared (Some ["You"; "Priya"]); expense_you_twice]).
Proof.
  split; [apply Permutation_swap|].
  split; [reflexivity|]. split; [reflexivity|]. split.
  - compute_done.
  - exists 0, 1. do 2 eexists.
    split; [lia|]. split; [reflexivity|]. split; [reflexivity|].
    compute_done.
Qed.

(** * Vendor extraction *)

(** ** Word capitalisation *)

Lemma capitalizeWords_from_length (inWord : bool) (s : string) :
  String.length (capitalizeWords_from inWord s) = String.length s.
Proof.
  revert inWord. induction s as [|c s IH]; intros inWord; [done|].
  simpl. destruct (is_word c); simpl; by rewrite IH.
Qed.

Lemma capitalizeWords_from_get (s : string) :
  forall (inWord : bool) (i : nat) (c : ascii),
    String.get i s = Some c ->
    String.get i (capitalizeWords_from inWord s)
    = Some (if is_word c
            then if match i with 0 => inWord | S _ => follows_word_char s i end
                 then toLowerChar c else toUpperChar c
            else c).
Proof.
  induction s as [|a s IH]; intros inWord i c Hget; [by destruct i|].
  destruct i as [|j].
  - injection Hget as ->. simpl. by destruct (is_word c).
  - simpl in Hget.
    assert (Hrest : String.get (S j) (capitalizeWords_from inWord (String a s))
                    = String.get j (capitalizeWords_from (is_word a) s)).
    { simpl. by destruct (is_word a). }
    rewrite Hrest, (IH (is_word a) j c Hget).
    destruct j as [|k]; reflexivity.
Qed.

Lemma capitalizeWords_spec (s : string) : word_capitalised s (capitalizeWords s).
Proof.
  split; [apply capitalizeWords_from_length|].
  intros i c Hget. unfold capitalizeWords.
  rewrite (capitalizeWords_from_get s false i c Hget). by destruct i.
Qed.

(** ** The pattern loop *)

Lemma vendor_of_pattern_span (text : string) (pattern : regex) :
  vendor_of_pattern text pattern
  = match captured_span pattern text with
    | Some span =>
        if (2 <? String.length span) && (String.length span <? 50)
        then Some span else None
    | None => None
    end.
Proof.
  unfold vendor_of_pattern, captured_span.
  destruct (regex_match pattern text) as [[g|]|]; [|done..].
  by case_bool_decide.
Qed.

Lemma acceptable_test (span : string) :
  (2 <? String.length span) && (String.length span <? 50) = true <-> acceptable span.
Proof. unfold acceptable. by rewrite andb_true_iff, !Nat.ltb_lt. Qed.

Lemma vendor_of_pattern_Some (text : string) (pattern : regex) (vendor : string) :
  vendor_of_pattern text pattern = Some vendor
  <-> captured_span pattern text = Some vendor /\ acceptable vendor.
Proof.
  rewrite vendor_of_pattern_span.
  destruct (captured_span pattern text) as [span|]; [|by split; [|intros []]].
  destruct (_ && _) eqn:Htest.
  - apply acceptable_test in Htest. split; [by intros [= ->] | by intros [[= ->] _]].
  - split; [done|]. intros [[= ->] Hacc].
    apply acceptable_test in Hacc. congruence.
Qed.

Lemma vendor_of_pattern_None (text : string) (pattern : regex) :
  vendor_of_pattern text pattern = None
  <-> forall span, captured_span pattern text = Some span -> ~ acceptable span.
Proof.
  split.
  - intros Hnone span Hspan Hacc.
    assert (vendor_of_pattern text pattern = Some span) by by apply vendor_of_pattern_Some.
    congruence.
  - intros Hall. destruct (vendor_of_pattern text pattern) as [vendor|] eqn:Hv; [|done].
    apply vendor_of_pattern_Some in Hv as [Hspan Hacc]. by destruct (Hall vendor).
Qed.

(** The loop returns the span of the first pattern, in list order, whose
    span is acceptable. *)
Lemma first_vendor_hit (text : string) (earlier later : list regex)
    (pattern : regex) (span : string) :
  no_vendor_in earlier text ->
  captured_span pattern text = Some span ->
  acceptable span ->
  first_vendor text (earlier ++ pattern :: later) = Some span.
Proof.
  intros Hearlier Hspan Hacc.
  induction earlier as [|p earlier IH]; simpl.
  - by rewrite (proj2 (vendor_of_pattern_Some text pattern span)).
  - rewrite (proj2 (vendor_of_pattern_None text p)).
    + apply IH. intros q sp Hq. apply Hearlier. by right.
    + intros sp. apply Hearlier. by left.
Qed.

Lemma first_vendor_miss (text : string) (patterns : list regex) :
  no_vendor_in patterns text -> first_vendor text patterns = None.
Proof.
  intros Hnone. induction patterns as [|p patterns IH]; [done|]. simpl.
  rewrite (proj2 (vendor_of_pattern_None text p)).
  - apply IH. intros q sp Hq. apply Hnone. by right.
  - intros sp. apply Hnone. by left.
Qed.

(** ** The primary line item *)

Lemma gt_irrefl (a : number) : gt a a = false.
Proof.
  destruct a; simpl; try done.
  apply bool_decide_eq_false, Qcle_not_lt, Qcle_refl.
Qed.

(** On numbers other than [NaN], [>] is a strict total order. *)
Lemma gt_trans (a b c : number) :
  gt a b = true -> gt b c = true -> gt a c = true.
Proof.
  destruct a as [p| | |], b as [q| | |], c as [r| | |]; simpl; try done.
  rewrite !bool_decide_eq_true. intros H1 H2. by apply Qclt_trans with q.
Qed.

Lemma gt_le_trans (a b c : number) :
  c <> NaN -> gt a b = true -> gt c b = false -> gt a c = true.
Proof.
  destruct a as [p| | |], b as [q| | |], c as [r| | |]; simpl; try done.
  rewrite !bool_decide_eq_true, bool_decide_eq_false. intros _ H1 H2.
  apply Qcle_lt_trans with q; [by apply Qcnot_lt_le | done].
Qed.

Lemma le_gt_trans (a b c : number) :
  b <> NaN -> gt b a = true -> gt b c = false -> gt a c = false.
Proof.
  destruct a as [p| | |], b as [q| | |], c as [r| | |]; simpl; try done.
  rewrite bool_decide_eq_true, !bool_decide_eq_false. intros _ H1 H2.
  apply Qcle_not_lt, Qcle_trans with q; [by apply Qclt_le_weak | by apply Qcnot_lt_le].
Qed.

Lemma le_le_trans (a b c : number) :
  b <> NaN -> gt a b = false -> gt b c = false -> gt a c = false.
Proof.
  destruct a as [p| | |], b as [q| | |], c as [r| | |]; simpl; try done.
  rewrite !bool_decide_eq_false. intros _ H1 H2.
  apply Qcle_not_lt, Qcle_trans with q; by apply Qcnot_lt_le.
Qed.

(** The [reduce] over [l] from the starting item [start]: the result is
    not exceeded by the start or by any item of [l]; and it is either the
    start, which then no item of [l] exceeds, or the first item of [l]
    that exceeds the start and everything before it. *)
Lemma primaryItem_fold (l : list BackendLineItem) :
  forall start : BackendLineItem,
    amount start <> NaN ->
    Forall (fun item => amount item <> NaN) l ->
    let r := primaryItem start l in
    amount r <> NaN
    /\ gt (amount start) (amount r) = false
    /\ (forall y, y ∈ l -> gt (amount y) (amount r) = false)
    /\ (r = start
        \/ exists i, l !! i = Some r
                     /\ gt (amount r) (amount start) = true
                     /\ forall j y, j < i -> l !! j = Some y ->
                                    gt (amount r) (amount y) = true).
Proof.
  unfold primaryItem.
  induction l as [|x l IH]; intros start Hstart Hl; simpl.
  - split; [done|]. split; [apply gt_irrefl|].
    split; [by intros y Hy%elem_of_nil | by left].
  - apply Forall_cons in Hl as [Hx Hl].
    destruct (gt (amount x) (amount start)) eqn:Hgt.
    + destruct (IH x Hx Hl) as (Hr & Hxr & Hall & Hwhich).
      split; [done|].
      split; [by apply (le_gt_trans _ (amount x))|].
      split.
      { intros y [->|Hy]%elem_of_cons; [done | by apply Hall]. }
      right. destruct Hwhich as [-> | (i & Hi & Hri & Hbefore)].
      * exists 0. split; [done|]. split; [done|]. intros j y Hj. lia.
      * exists (S i). split; [done|].
        split; [by apply (gt_trans _ (amount x))|].
        intros [|j] y Hj Hy; [by injection Hy as <- | apply (Hbefore j); [lia | done]].
    + destruct (IH start Hstart Hl) as (Hr & Hsr & Hall & Hwhich).
      split; [done|]. split; [done|].
      split.
      { intros y [->|Hy]%elem_of_cons; [|by apply Hall].
        by apply (le_le_trans _ (amount start)). }
      destruct Hwhich as [-> | (i & Hi & Hri & Hbefore)]; [by left|].
      right. exists (S i). split; [done|]. split; [done|].
      intros [|j] y Hj Hy; [|apply (Hbefore j); [lia | done]].
      injection Hy as <-. by apply (gt_le_trans _ (amount start)).
Qed.

(** The primary item of a non-empty list is its first item of highest
    amount. *)
Lemma primaryItem_first_highest (first : BackendLineItem) (rest : list BackendLineItem) :
  Forall (fun item => amount item <> NaN) (first :: rest) ->
  first_highest (first :: rest) (primaryItem first (first :: rest)).
Proof.
  intros [Hfirst Hrest]%Forall_cons.
  assert (Hsame : primaryItem first (first :: rest) = primaryItem first rest).
  { unfold primaryItem. simpl. by rewrite gt_irrefl. }
  rewrite Hsame.
  destruct (primaryItem_fold rest first Hfirst Hrest) as (_ & Hfr & Hall & Hwhich).
  destruct Hwhich as [Heq | (i & Hi & Hri & Hbefore)].
  - exists 0. rewrite Heq in *. split; [done|]. split.
    + intros y [->|Hy]%elem_of_cons; [apply gt_irrefl | by apply Hall].
    + intros j y Hj. lia.
  - exists (S i). split; [done|]. split.
    + intros y [->|Hy]%elem_of_cons; [done | by apply Hall].
    + intros [|j] y Hj Hy; [by injection Hy as <- | apply (Hbefore j); [lia | done]].
Qed.

(** ** The extractor *)

Lemma extractVendorName_of_pattern (text span : string)
    (lineItems : option (list BackendLineItem)) :
  first_vendor text vendorPatterns = Some span ->
  extractVendorName text lineItems = Ok (capitalizeWords span).
Proof. intros Hfirst. unfold extractVendorName. by rewrite Hfirst. Qed.

Lemma extractVendorName_fallback (text : string) (lineItems : list BackendLineItem) :
  first_vendor text vendorPatterns = None ->
  extractVendorName text (Some lineItems)
  = Ok match lineItems with
       | [] => "Expense"
       | first :: _ =>
           let d := description (primaryItem first lineItems) in
           if String.length d <? 30 then capitalizeWords d else "Expense"
       end.
Proof.
  intros Hfirst. unfold extractVendorName. rewrite Hfirst. cbn [defined bind].
  destruct lineItems as [|first rest]; [done|].
  cbv zeta. by destruct (String.length _ <? 30).
Qed.

(** C6.  [extractVendorName] always returns a string when it is given a
    list of line items.  The patterns are tried in their order in
    [vendorPatterns]: the first one whose captured span (group 1 of its
    leftmost match, trimmed) is longer than 2 and shorter than 50
    characters decides, and the result is that span word-capitalised.
    When no pattern has such a span, the result for an empty item list is
    "Expense"; otherwise it is decided by the first item of highest
    amount (amounts other than NaN): its description word-capitalised if
    that is shorter than 30 characters, and "Expense" if not.
    Word-capitalising puts the first character of every run of word
    characters in upper case and the rest of the run in lower case.  For
    the text "Yesterday I went to Big Bazaar with Priya" the result is
    "Big Bazaar". *)
Theorem extractVendorName_spec (originalText : string)
    (lineItems : list BackendLineItem) :
  (exists vendor, extractVendorName originalText (Some lineItems) = Ok vendor)
  /\ (forall earlier pattern later span,
        vendorPatterns = earlier ++ pattern :: later ->
        no_vendor_in earlier originalText ->
        captured_span pattern originalText = Some span ->
        acceptable span ->
        extractVendorName originalText (Some lineItems) = Ok (capitalizeWords span))
  /\ (no_vendor_in vendorPatterns originalText ->
      lineItems = [] ->
      extractVendorName originalText (Some lineItems) = Ok "Expense")
  /\ (no_vendor_in vendorPatterns originalText ->
      lineItems <> [] ->
      Forall (fun item => amount item <> NaN) lineItems ->
      exists primary,
        first_highest lineItems primary
        /\ extractVendorName originalText (Some lineItems)
           = Ok (if String.length (description primary) <? 30
                 then capitalizeWords (description primary)
                 else "Expense"))
  /\ (forall s, word_capitalised s (capitalizeWords s))
  /\ (forall items,
        extractVendorName "Yesterday I went to Big Bazaar with Priya" items
        = Ok "Big Bazaar").
Proof.
  split; [apply extractVendorName_total|].
  split.
  { intros earlier pattern later span Hpatterns Hearlier Hspan Hacc.
    apply extractVendorName_of_pattern. rewrite Hpatterns.
    by apply first_vendor_hit. }
  split.
  { intros Hnone ->. rewrite extractVendorName_fallback; [done|].
    by apply first_vendor_miss. }
  split.
  { intros Hnone Hitems Hamounts.
    destruct lineItems as [|first rest]; [done|].
    exists (primaryItem first (first :: rest)).
    split; [by apply primaryItem_first_highest|].
    rewrite extractVendorName_fallback; [done|]. by apply first_vendor_miss. }
  split; [apply capitalizeWords_spec|].
  intros items.
  rewrite (extractVendorName_of_pattern _ "Big Bazaar"); vm_compute; reflexivity.
Qed.

Lemma no_vendor_in_Lunch : no_vendor_in vendorPatterns "Lunch".
Proof.
  intros pattern span Hin Hspan.
  unfold vendorPatterns in Hin.
  repeat (apply elem_of_cons in Hin as [-> | Hin]; [by vm_compute in Hspan|]).
  by apply elem_of_nil in Hin.
Qed.

(** Witness for C6: the third pattern decides after the first one found a
    span of two characters; and without any match the first of the two
    dearest items names the vendor. *)
Lemma extractVendorName_spec_witness :
  extractVendorName "Snacks at AB. Ordered from Big Store."
                    (Some [priced "chips" 40]) = Ok "Big Store"
  /\ exists primary,
       first_highest [priced "tea" 20; priced "biryani" 250; priced "kebab" 250] primary
       /\ extractVendorName "Lunch"
            (Some [priced "tea" 20; priced "biryani" 250; priced "kebab" 250])
          = Ok (if String.length (description primary) <? 30
                then capitalizeWords (description primary) else "Expense").
Proof.
  split.
  - apply (proj1 (proj2 (extractVendorName_spec
             "Snacks at AB. Ordered from Big Store." [priced "chips" 40]))
             [ Seq (Lit "at") vendor_tail;
               Seq (Lit "went") (Seq (Plus is_space) (Seq (Lit "to") vendor_tail)) ]
             (Seq (Lit "from") vendor_tail)
             [ Seq (Lit "bought")
                   (Seq (LazyStar is_dot) (Seq (Lit "from") vendor_tail)) ]
             "Big Store").
    + reflexivity.
    + intros pattern span Hin Hspan.
      repeat (apply elem_of_cons in Hin as [-> | Hin];
              [vm_compute in Hspan;
               first [done | injection Hspan as <-; intros [Hlow _]; simpl in Hlow; lia]|]).
      by apply elem_of_nil in Hin.
    + vm_compute. reflexivity.
    + vm_compute. lia.
  - apply (proj1 (proj2 (proj2 (proj2 (extractVendorName_spec
             "Lunch" [priced "tea" 20; priced "biryani" 250; priced "kebab" 250]))))).
    + apply no_vendor_in_Lunch.
    + done.
    + repeat constructor; done.
Defined.

(** What the witness amounts to, and the priority of the patterns on a
    text that two of them match. *)
Lemma extractVendorName_examples :
  extractVendorName "Lunch"
    (Some [priced "tea" 20; priced "biryani" 250; priced "kebab" 250]) = Ok "Biryani"
  /\ extractVendorName "We went to Cafe Coffee Day at Phoenix Mall" (Some [])
     = Ok "Phoenix Mall"
  /\ extractVendorName "I bought rice from RELIANCE fresh today" (Some [])
     = Ok "Reliance Fresh"
  /\ extractVendorName "Lunch" (Some []) = Ok "Expense"
  /\ extractVendorName "Lunch"
       (Some [priced "a description of thirty characters" 5]) = Ok "Expense"
  /\ extractVendorName "Lunch" None = Throw TypeError.
Proof. repeat split; vm_compute; reflexivity. Qed.

(** * Further properties of the service *)

(** ** Clean participants and sharing *)

Lemma filter_not_self_elem (raw : list string) (p : string) :
  p ∈ List.filter not_self raw <-> p ∈ raw /\ not_self p = true.
Proof. by rewrite !list_elem_of_In, filter_In. Qed.

Lemma filter_sublist {A} (f : A -> bool) (l : list A) : sublist (List.filter f l) l.
Proof.
  induction l as [|x l IH]; simpl; [constructor|].
  destruct (f x); by constructor.
Qed.




(** X2.  With neither [is_shared] nor [clean_participants] in the parse,
    the returned expense is shared exactly when some raw participant is
    left after the self references are removed. *)
Theorem convert_shared_iff_other_participant (be : BackendExpense) (e : Expense) :
  convertBackendExpenseToFrontend be = Ok e ->
  is_shared (parsed_data be) = None ->
  clean_participants (parsed_data be) = None ->
  type e = shared
  <-> exists p, p ∈ participants (parsed_data be) /\ not_self p = true.
Proof.
  intros Hok Hflag Hclean.
  rewrite (convert_falls_back_on_participants be e Hflag Hok).
  unfold cleanParticipants, cleanParticipantsOf. rewrite Hclean.
  case_bool_decide as Hnil; split.
  - done.
  - intros (p & Hp & Hself).
    assert (Hin : p ∈ List.filter not_self (participants (parsed_data be)))
      by by apply filter_not_self_elem.
    rewrite Hnil in Hin. by apply elem_of_nil in Hin.
  - intros _. destruct (List.filter not_self _) as [|p rest] eqn:Hfilter; [done|].
    exists p. apply filter_not_self_elem. rewrite Hfilter. apply list_elem_of_here.
  - done.
Qed.

Lemma convert_shared_iff_other_participant_witness :
  exists e, convertBackendExpenseToFrontend
              (stored (a_parse ["me"; "I"] None None (Some []) (num 10))) = Ok e
            /\ (type e = shared <-> exists p, p ∈ ["me"; "I"] /\ not_self p = true)
            /\ type e = personal.
Proof.
  set (be := stored (a_parse ["me"; "I"] None None (Some []) (num 10))).
  destruct (convertBackendExpenseToFrontend be) as [e|] eqn:Hok; [|by vm_compute in Hok].
  exists e. split; [done|]. split.
  - exact (convert_shared_iff_other_participant be e Hok eq_refl eq_refl).
  - vm_compute in Hok. by injection Hok as <-.
Defined.

(** ** Identifiers, dates and line items *)


(** The fields of a returned expense that do not depend on sharing. *)
Lemma convert_fields (be : BackendExpense) (e : Expense) :
  convertBackendExpenseToFrontend be = Ok e ->
  exists items vendor,
    line_items (parsed_data be) = Some items
    /\ extractVendorName (original_text be) (Some items) = Ok vendor
    /\ expense_id e = "backend-" +:+ pretty (id be)
    /\ vendorName e = vendor
    /\ transactionDate e = before "T" (created_at be)
    /\ totalAmount e = total_amount (parsed_data be)
    /\ expense_category e = categorizeExpense items
    /\ lineItems e = map (fun item => {| item_description := description item;
                                         price := amount item;
                                         item_category := category item |}) items
    /\ sharedSpaceId e = None
    /\ backendData e = Some {| bd_line_items := items;
                               bd_participants := participants (parsed_data be);
                               bd_clean_participants := cleanParticipants be |}.
Proof.
  intros Hok. unfold convertBackendExpenseToFrontend in Hok.
  destruct (line_items (parsed_data be)) as [items|] eqn:Hitems.
  - destruct (extractVendorName _ _) as [vendor|] eqn:Hvendor; [|done].
    cbn [bind defined] in Hok. injection Hok as <-.
    exists items, vendor. fold (cleanParticipants be).
    by destruct (match is_shared (parsed_data be) with
                 | Some explicit => explicit
                 | None => 0 <? length (cleanParticipants be)
                 end).
  - by destruct (extractVendorName _ _).
Qed.



(** X4.  The dashboard sees the backend's own line items for a converted
    expense: [getExpenseWithSplits] returns the parse's [line_items], so
    the participant totals shown are those of the backend's splits; and
    the expense's own items are the same items, one for one and in order,
    with description, amount and category taken over. *)
Theorem getExpenseWithSplits_of_converted (be : BackendExpense) (e : Expense) :
  convertBackendExpenseToFrontend be = Ok e ->
  exists items,
    line_items (parsed_data be) = Some items
    /\ getExpenseWithSplits e = items
    /\ calculateParticipantTotals (getExpenseWithSplits e)
       = calculateParticipantTotals items
    /\ length (lineItems e) = length items
    /\ forall i item,
         items !! i = Some item ->
         lineItems e !! i = Some {| item_description := description item;
                                    price := amount item;
                                    item_category := category item |}.
Proof.
  intros Hok.
  destruct (convert_fields be e Hok)
    as (items & vendor & Hitems & _ & _ & _ & _ & _ & _ & Hlines & _ & Hdata).
  exists items. unfold getExpenseWithSplits. rewrite Hdata, Hlines. cbn.
  split; [done|]. split; [done|]. split; [done|]. split; [by rewrite length_map|].
  intros i item Hi. by rewrite list_lookup_fmap, Hi.
Qed.

Lemma getExpenseWithSplits_of_converted_witness :
  exists e items,
    convertBackendExpenseToFrontend
      (stored (a_parse ["Priya"] None None
                 (Some [split_item 1000 (Some [a_split "me" 600; a_split "Priya" 400])])
                 (num 1000))) = Ok e
    /\ getExpenseWithSplits e = items
    /\ length (lineItems e) = length items.
Proof.
  set (be := stored _).
  destruct (convertBackendExpenseToFrontend be) as [e|] eqn:Hok; [|by vm_compute in Hok].
  destruct (getExpenseWithSplits_of_converted be e Hok) as (items & _ & Hget & _ & Hlen & _).
  by exists e, items.
Defined.



Lemma before_app (sep : ascii) (d rest : string) :
  (forall i, String.get i d <> Some sep) ->
  before sep (d +:+ String sep rest) = d.
Proof.
  induction d as [|c d IH]; intros Hfree.
  - rewrite append_empty_l. simpl. by rewrite bool_decide_eq_true_2.
  - rewrite append_cons. simpl. rewrite bool_decide_eq_false_2.
    + f_equal. apply IH. intros i. apply (Hfree (S i)).
    + intros ->. by apply (Hfree 0).
Qed.

Lemma before_free (sep : ascii) (s : string) (i : nat) :
  String.get i (before sep s) <> Some sep.
Proof.
  revert i. induction s as [|c s IH]; intros i; [by destruct i|].
  simpl. case_bool_decide as Hc; [by destruct i|].
  destruct i as [|i]; simpl; [congruence | apply IH].
Qed.

Lemma before_prefix (sep : ascii) (s : string) :
  exists rest, s = before sep s +:+ rest.
Proof.
  induction s as [|c s [rest IH]]; [by exists ""|].
  simpl. case_bool_decide.
  - by exists (String c s).
  - exists rest. by rewrite append_cons, <- IH.
Qed.

(** X6.  The transaction date of a converted expense is the text of
    [created_at] before its first "T": a beginning of [created_at] that
    contains no "T"; for a timestamp "<date>T<time>" whose date part has
    no "T" it is that date part. *)
Theorem convert_transactionDate (be : BackendExpense) (e : Expense) :
  convertBackendExpenseToFrontend be = Ok e ->
  (exists rest, created_at be = transactionDate e +:+ rest)
  /\ (forall i, String.get i (transactionDate e) <> Some "T"%char)
  /\ (forall date time,
        created_at be = date +:+ String "T" time ->
        (forall i, String.get i date <> Some "T"%char) ->
        transactionDate e = date).
Proof.
  intros Hok.
  destruct (convert_fields be e Hok) as (? & ? & _ & _ & _ & _ & Hdate & _).
  rewrite Hdate. split; [apply before_prefix|]. split; [apply before_free|].
  intros date time -> Hfree. by apply before_app.
Qed.

Lemma convert_transactionDate_witness :
  exists e, convertBackendExpenseToFrontend parse_rohit_priya = Ok e
            /\ transactionDate e = "2024-01-02".
Proof.
  destruct (convertBackendExpenseToFrontend parse_rohit_priya) as [e|] eqn:Hok;
    [|by vm_compute in Hok].
  exists e. split; [done|].
  apply (proj2 (proj2 (convert_transactionDate parse_rohit_priya e Hok))
           "2024-01-02" "10:00:00.000Z"); [reflexivity|].
  intros i. do 11 (destruct i as [|i]; [done|]). done.
Defined.

(** ** Vendor names and categories *)




Lemma is_word_toUpperChar (c : ascii) : is_word (toUpperChar c) = is_word c.
Proof. destruct c as [[] [] [] [] [] [] [] []]; reflexivity. Qed.

Lemma is_word_toLowerChar (c : ascii) : is_word (toLowerChar c) = is_word c.
Proof. destruct c as [[] [] [] [] [] [] [] []]; reflexivity. Qed.

Lemma toUpperChar_idemp (c : ascii) : toUpperChar (toUpperChar c) = toUpperChar c.
Proof. destruct c as [[] [] [] [] [] [] [] []]; reflexivity. Qed.

Lemma toLowerChar_idemp (c : ascii) : toLowerChar (toLowerChar c) = toLowerChar c.
Proof. destruct c as [[] [] [] [] [] [] [] []]; reflexivity. Qed.

Lemma toLowerChar_toUpperChar (c : ascii) : toLowerChar (toUpperChar c) = toLowerChar c.
Proof. destruct c as [[] [] [] [] [] [] [] []]; reflexivity. Qed.

Lemma capitalizeWords_from_idemp (s : string) (inWord : bool) :
  capitalizeWords_from inWord (capitalizeWords_from inWord s)
  = capitalizeWords_from inWord s.
Proof.
  revert inWord. induction s as [|c s IH]; intros inWord; [done|].
  simpl. destruct (is_word c) eqn:Hword; simpl.
  - destruct inWord.
    + by rewrite is_word_toLowerChar, Hword, toLowerChar_idemp, IH.
    + by rewrite is_word_toUpperChar, Hword, toUpperChar_idemp, IH.
  - by rewrite Hword, IH.
Qed.

Lemma toLowerCase_capitalizeWords_from (s : string) (inWord : bool) :
  toLowerCase (capitalizeWords_from inWord s) = toLowerCase s.
Proof.
  revert inWord. unfold toLowerCase.
  induction s as [|c s IH]; intros inWord; [done|].
  simpl. destruct (is_word c); simpl; rewrite IH; [|done].
  destruct inWord; by rewrite ?toLowerChar_idemp, ?toLowerChar_toUpperChar.
Qed.

(** X8.  [capitalizeWords] changes the case of letters only and is
    idempotent: applying it to its own result changes nothing, the result
    has the length of the input, and input and result agree once both are
    lower-cased. *)
Theorem capitalizeWords_idempotent (str : string) :
  capitalizeWords (capitalizeWords str) = capitalizeWords str
  /\ String.length (capitalizeWords str) = String.length str
  /\ toLowerCase (capitalizeWords str) = toLowerCase str.
Proof.
  split; [apply capitalizeWords_from_idemp|].
  split; [apply capitalizeWords_from_length | apply toLowerCase_capitalizeWords_from].
Qed.

Lemma substring_of_app_r (t s extra : string) :
  substring_of t s -> substring_of t (s +:+ extra).
Proof.
  intros (pre & post & ->). exists pre, (post +:+ extra).
  by rewrite !append_assoc.
Qed.

Lemma substring_of_app_l (t s extra : string) :
  substring_of t s -> substring_of t (extra +:+ s).
Proof.
  intros (pre & post & ->). exists (extra +:+ pre), post.
  by rewrite !append_assoc.
Qed.

Lemma substring_of_join (t sep : string) (parts : list string) (part : string) :
  part ∈ parts -> substring_of t part -> substring_of t (join sep parts).
Proof.
  intros Hin Hsub. induction parts as [|p parts IH]; [by apply elem_of_nil in Hin|].
  destruct parts as [|q parts].
  - apply list_elem_of_singleton in Hin as ->. exact Hsub.
  - change (join sep (p :: q :: parts)) with (p +:+ sep +:+ join sep (q :: parts)).
    apply elem_of_cons in Hin as [-> | Hin].
    + by apply substring_of_app_r.
    + by apply substring_of_app_l, substring_of_app_l, IH.
Qed.

Lemma map_chars_app (f : ascii -> ascii) (a b : string) :
  map_chars f (a +:+ b) = map_chars f a +:+ map_chars f b.
Proof.
  induction a as [|c a IH]; [done|].
  rewrite append_cons. simpl. by rewrite IH, append_cons.
Qed.

Lemma substring_of_toLowerCase (t s : string) :
  substring_of t s -> substring_of (toLowerCase t) (toLowerCase s).
Proof.
  intros (pre & post & ->). exists (toLowerCase pre), (toLowerCase post).
  unfold toLowerCase. by rewrite !map_chars_app.
Qed.

(** X9.  Dining has priority and the match ignores case: as soon as one
    description contains "food", "restaurant" or "cafe" in any mix of
    upper and lower case, the expense is categorised "Dining", whatever
    the other line items say. *)
Theorem categorizeExpense_dining_first (lineItems : list BackendLineItem)
    (item : BackendLineItem) (word : string) :
  item ∈ lineItems ->
  substring_of word (description item) ->
  toLowerCase word ∈ ["food"; "restaurant"; "cafe"] ->
  categorizeExpense lineItems = "Dining".
Proof.
  intros Hitem Hword Hkeyword.
  rewrite categorizeExpense_unfold.
  apply (first_category_hit _ _ [] "Dining" ["food"; "restaurant"; "cafe"]
           (tail category_table)); [reflexivity | constructor |].
  apply existsb_exists. exists (toLowerCase word).
  split; [by apply list_elem_of_In|].
  apply includes_spec. unfold search_string.
  apply (substring_of_join _ _ _ (toLowerCase (description item))).
  - apply list_elem_of_fmap. by exists item.
  - by apply substring_of_toLowerCase.
Qed.

Lemma categorizeExpense_dining_first_witness :
  categorizeExpense [described "Groceries"; described "Phone bill";
                     described "Street FOOD stall"] = "Dining".
Proof.
  apply (categorizeExpense_dining_first _ (described "Street FOOD stall") "FOOD").
  - do 2 apply list_elem_of_further. apply list_elem_of_here.
  - by exists "Street ", " stall".
  - vm_compute. apply list_elem_of_here.
Defined.

(** Failure of the conversion, for later use. *)
Lemma convert_fails_iff_line_items_absent (be : BackendExpense) :
  (convertBackendExpenseToFrontend be = Throw TypeError
   <-> line_items (parsed_data be) = None)
  /\ (forall e, convertBackendExpenseToFrontend be = Ok e ->
                exists items, line_items (parsed_data be) = Some items).
Proof.
  split; [split|].
  - intros Hthrow. destruct (line_items (parsed_data be)) as [items|] eqn:Hitems; [|done].
    destruct (convert_with_items be items Hitems) as (e & Hok & _).
    by rewrite Hok in Hthrow.
  - apply convert_without_items.
  - apply convert_ok_has_items.
Qed.

(** * Further properties of the application state *)

(** ** Parsing a text and storing the result *)

Lemma mock_is_shared (authToken text now : string) (response : ParseExpenseResponse) :
  is_shared (parsed_data (mockBackendExpense authToken text now response))
  = Some (bool_decide (r_is_shared response = Some true)
          || negb (bool_decide (cleanParticipantsOf (r_clean_participants response)
                                                    (r_participants response) = []))).
Proof.
  cbn [mockBackendExpense parsed_data is_shared]. f_equal.
  destruct (r_is_shared response) as [[]|];
    by destruct (cleanParticipantsOf (r_clean_participants response)
                                     (r_participants response)).
Qed.

(** The two outcomes of [parseExpenseFromText]. *)
Lemma parseExpenseFromText_cases (authToken text now : string)
    (response : ParseExpenseResponse) :
  let cleaned := cleanParticipantsOf (r_clean_participants response)
                                     (r_participants response) in
  (parseExpenseFromText authToken text now response = Throw TypeError
   <-> r_line_items response = None)
  /\ forall e,
       parseExpenseFromText authToken text now response = Ok e ->
       (type e = shared <-> r_is_shared response = Some true \/ cleaned <> [])
       /\ (type e = shared -> members e = Some ("You" :: cleaned))
       /\ (type e = personal -> members e = None).
Proof.
  intros cleaned. unfold parseExpenseFromText.
  set (be := mockBackendExpense authToken text now response).
  split; [exact (proj1 (convert_fails_iff_line_items_absent be))|].
  intros e Hok.
  destruct (convert_type_and_members_aux be e Hok) as [Hpersonal Hshared].
  split; [|split; [intros Hs; by destruct (Hshared Hs) | exact Hpersonal]].
  rewrite (convert_uses_explicit_is_shared be e _ (mock_is_shared _ _ _ _) Hok).
  fold cleaned.
  destruct (decide (r_is_shared response = Some true)) as [Hflag|Hflag];
    destruct (decide (cleaned = [])) as [Hclean|Hclean].
  - rewrite (bool_decide_eq_true_2 _ Hflag). simpl. split; [by left | done].
  - rewrite (bool_decide_eq_true_2 _ Hflag). simpl. split; [by left | done].
  - rewrite (bool_decide_eq_false_2 _ Hflag), (bool_decide_eq_true_2 _ Hclean).
    simpl. split; [done | by intros [|]].
  - rewrite (bool_decide_eq_false_2 _ Hflag), (bool_decide_eq_false_2 _ Hclean).
    simpl. split; [by right | done].
Qed.

(** X10.  What [parseExpenseFromText] returns is decided by the answer's
    [is_shared] and participants alone ([expense_type] is never read): the
    expense is shared exactly when [is_shared] is [true] or a clean
    participant is left; a shared expense has the members "You" and the
    clean participants, a personal one has none.  It fails exactly when
    the answer has no [line_items]. *)
Theorem parseExpenseFromText_sharing (authToken text now : string)
    (response : ParseExpenseResponse) :
  let cleaned := cleanParticipantsOf (r_clean_participants response)
                                     (r_participants response) in
  (parseExpenseFromText authToken text now response = Throw TypeError
   <-> r_line_items response = None)
  /\ forall e,
       parseExpenseFromText authToken text now response = Ok e ->
       (type e = shared <-> r_is_shared response = Some true \/ cleaned <> [])
       /\ (type e = shared -> members e = Some ("You" :: cleaned))
       /\ (type e = personal -> members e = None).
Proof.
  intros cleaned.
  destruct (parseExpenseFromText_cases authToken text now response) as [Hfail Hok].
  split; [exact Hfail | exact Hok].
Qed.

Lemma parseExpenseFromText_sharing_witness :
  exists e, parseExpenseFromText "user-one" "Dinner" "2024-01-02T10:00:00.000Z"
              response_explicit_false = Ok e
            /\ members e = Some ["You"; "Priya"].
Proof.
  destruct (parseExpenseFromText "user-one" "Dinner" "2024-01-02T10:00:00.000Z"
              response_explicit_false) as [e|] eqn:Hok; [|by vm_compute in Hok].
  exists e. split; [done|].
  destruct (proj2 (parseExpenseFromText_sharing "user-one" "Dinner"
                     "2024-01-02T10:00:00.000Z" response_explicit_false) e Hok)
    as (Hiff & Hmembers & _).
  apply Hmembers, Hiff. by right.
Defined.

(** X11.  Submitting a text: a blank text changes nothing; an answer
    without [line_items] changes nothing and shows the error; otherwise
    exactly one expense is added, and it is stored as shared, with a new
    "<vendorName> Bill" space whose members are "You" and the clean
    participants, exactly when a clean participant is left.  The answer's
    [is_shared] has no part in it: an answer flagged shared without
    participants is stored as personal and adds no space. *)
Theorem handleSubmit_outcome (authToken billText now uuid : string)
    (response : ParseExpenseResponse) (st : AppState) :
  let cleaned := cleanParticipantsOf (r_clean_participants response)
                                     (r_participants response) in
  let outcome := handleSubmit authToken billText now uuid response st in
  (trim billText = "" -> outcome = (st, None))
  /\ (trim billText <> "" -> r_line_items response = None ->
      outcome = (st, Some TypeError))
  /\ (trim billText <> "" -> r_line_items response <> None ->
      outcome.2 = None
      /\ exists e,
           expenses outcome.1 = expenses st ++ [e]
           /\ (type e = shared <-> cleaned <> [])
           /\ (cleaned = [] -> sharedSpaces outcome.1 = sharedSpaces st)
           /\ (cleaned <> [] ->
               sharedSpaceId e = Some uuid
               /\ sharedSpaces outcome.1
                  = sharedSpaces st ++
                    [ {| space_id := uuid; name := vendorName e +:+ " Bill";
                         space_members := "You" :: cleaned |} ])).
Proof.
  intros cleaned outcome. subst outcome. unfold handleSubmit.
  split; [intros Hblank; by rewrite bool_decide_eq_true_2|].
  split.
  { intros Hblank Hnone. rewrite bool_decide_eq_false_2 by done.
    by rewrite (proj2 (proj1 (parseExpenseFromText_cases _ _ _ _)) Hnone). }
  intros Hblank Hitems. rewrite bool_decide_eq_false_2 by done.
  destruct (parseExpenseFromText authToken (trim billText) now response)
    as [parsed|[]] eqn:Hok.
  2: { by apply (proj1 (parseExpenseFromText_cases _ _ _ _)) in Hok. }
  destruct (proj2 (parseExpenseFromText_cases _ _ _ _) parsed Hok)
    as (Hiff & Hshared & Hpersonal).
  fold cleaned in Hiff, Hshared. cbn [fst snd]. split; [done|].
  unfold handleReceiptParsed, has_several_members.
  destruct (type parsed) eqn:Htype.
  - rewrite (Hpersonal eq_refl).
    assert (Hclean : cleaned = []).
    { destruct cleaned; [done|]. assert (personal = shared) by (apply Hiff; by right). done. }
    eexists. cbn. split; [done|]. rewrite Hclean. by split; [|split].
  - rewrite (Hshared eq_refl). destruct cleaned as [|p rest] eqn:Hclean.
    + eexists. cbn. split; [done|]. by split; [|split].
    + eexists. cbn. split; [done|]. split; [done|]. by split.
Qed.

Lemma handleSubmit_outcome_witness :
  exists e, expenses (handleSubmit "user-one" "  Dinner with Priya " "2024-01-02T10:00:00Z"
                        "id-1" response_explicit_false empty_state).1 = [e]
            /\ type e = shared.
Proof.
  destruct (proj2 (proj2 (handleSubmit_outcome "user-one" "  Dinner with Priya "
                            "2024-01-02T10:00:00Z" "id-1" response_explicit_false
                            empty_state)) ltac:(by vm_compute) ltac:(done))
    as (_ & e & Hexp & Hiff & _).
  exists e. split; [exact Hexp|]. by apply Hiff.
Defined.

(** The answer says [is_shared: true] and names nobody. *)
Lemma handleSubmit_flagged_without_participants :
  let response :=
    {| message := "ok"; document_id := 8; r_participants := ["me"];
       r_clean_participants := None; r_is_shared := Some true;
       r_expense_type := Some shared; r_line_items := Some [described "tea"];
       r_total_amount := num 20; r_status := "success" |} in
  let st := (handleSubmit "user-one" "Tea" "2024-01-02T10:00:00Z" "id-1"
               response empty_state).1 in
  sharedSpaces st = []
  /\ map type (expenses st) = [personal]
  /\ map members (expenses st) = [Some ["You"]].
Proof. vm_compute. done. Qed.

(** X12.  [handleReceiptParsed] only ever adds: the expenses grow by
    exactly one entry at the end, the shared spaces by at most one, and
    what the state held before stays in place.  The stored expense is the
    parsed one except for its sharing fields, and it is stored as shared
    exactly when it lists more than one member, whatever type it came
    with. *)
Theorem handleReceiptParsed_only_adds (uuid : string) (parsedData : Expense)
    (st : AppState) :
  let st' := handleReceiptParsed uuid parsedData st in
  (exists e,
      expenses st' = expenses st ++ [e]
      /\ (expense_id e, vendorName e, transactionDate e, totalAmount e)
         = (expense_id parsedData, vendorName parsedData,
            transactionDate parsedData, totalAmount parsedData)
      /\ (expense_category e, lineItems e, members e, backendData e)
         = (expense_category parsedData, lineItems parsedData,
            members parsedData, backendData parsedData)
      /\ (type e = shared <-> 1 < memberCount parsedData))
  /\ (exists added, sharedSpaces st' = sharedSpaces st ++ added /\ length added <= 1).
Proof.
  intros st'. subst st'. unfold handleReceiptParsed, has_several_members, memberCount.
  destruct (members parsedData) as [ms|] eqn:Hms.
  - destruct (1 <? length ms) eqn:Hlen; cbn.
    + apply Nat.ltb_lt in Hlen. split.
      * eexists. split; [done|]. cbn. rewrite Hms.
        split; [done|]. split; [done|]. by split.
      * eexists. split; [done|]. simpl. lia.
    + apply Nat.ltb_ge in Hlen. split.
      * eexists. split; [done|]. cbn. rewrite Hms.
        split; [done|]. split; [done|]. split; [done | intros; simpl in *; lia].
      * exists []. split; [by rewrite app_nil_r | simpl; lia].
  - cbn. split.
    + eexists. split; [done|]. cbn. rewrite Hms.
      split; [done|]. split; [done|]. split; [done | intros; simpl in *; lia].
    + exists []. split; [by rewrite app_nil_r | simpl; lia].
Qed.

(** ** Loading the stored expenses *)

Lemma convertAll_Ok (l : list BackendExpense) (es : list Expense) :
  convertAll l = Ok es
  <-> Forall2 (fun be e => convertBackendExpenseToFrontend be = Ok e) l es.
Proof.
  revert es. induction l as [|be l IH]; intros es; simpl.
  - split; [intros [= <-]; constructor | by intros ->%Forall2_nil_inv_l].
  - destruct (convertBackendExpenseToFrontend be) as [e|x] eqn:Hbe; cbn [bind].
    + destruct (convertAll l) as [es'|x] eqn:Hl; cbn [bind].
      * split.
        -- intros [= <-]. constructor; [done | by apply IH].
        -- intros (e' & es'' & He & Hes & ->)%Forall2_cons_inv_l.
           apply IH in Hes. congruence.
      * split; [done|].
        intros (e' & es'' & He & Hes & ->)%Forall2_cons_inv_l.
        by apply IH in Hes.
    + split; [done|].
      intros (e' & es'' & He & Hes & ->)%Forall2_cons_inv_l. congruence.
Qed.

Lemma convertAll_Throw (l : list BackendExpense) :
  (exists x, convertAll l = Throw x)
  <-> exists be, be ∈ l /\ line_items (parsed_data be) = None.
Proof.
  induction l as [|be l IH]; simpl.
  - split; [by intros [x Hx] | by intros (be & Hbe%elem_of_nil & _)].
  - destruct (line_items (parsed_data be)) as [items|] eqn:Hitems.
    + destruct (convert_with_items be items Hitems) as (e & -> & _). cbn [bind].
      destruct (convertAll l) as [es|x]; cbn [bind].
      * split; [by intros [x Hx]|].
        intros (be' & [->|Hin]%elem_of_cons & Hnone); [congruence|].
        destruct (proj2 IH) as [x Hx]; [by exists be' | done].
      * split; [|by exists x]. intros _.
        destruct (proj1 IH) as (be' & Hin & Hnone); [by exists x|].
        exists be'. split; [by right | done].
    + rewrite (convert_without_items be Hitems). cbn [bind].
      split; [|by exists TypeError]. intros _. exists be. split; [by left | done].
Qed.

(** X13.  Loading is all or nothing.  If every stored record has
    [line_items], the expenses of the state are replaced by the converted
    records, one for one and in order, and the shared spaces by those
    grouped from them; if a single record lacks [line_items], nothing of
    the state changes and the error is shown. *)
Theorem loadExpenses_all_or_nothing (randomUUID : nat -> string)
    (response : list BackendExpense) (st : AppState) :
  let outcome := loadExpenses randomUUID response st in
  ((forall be, be ∈ response -> line_items (parsed_data be) <> None) ->
   outcome.2 = None
   /\ Forall2 (fun be e => convertBackendExpenseToFrontend be = Ok e)
              response (expenses outcome.1)
   /\ sharedSpaces outcome.1 = groupSharedSpaces randomUUID (expenses outcome.1))
  /\ ((exists be, be ∈ response /\ line_items (parsed_data be) = None) ->
      outcome = (st, Some TypeError)).
Proof.
  intros outcome. subst outcome. unfold loadExpenses.
  destruct (convertAll response) as [es|[]] eqn:Hall; cbn [fst snd]; split.
  - intros _. split; [done|]. split; [by apply convertAll_Ok | done].
  - intros Hbad. apply convertAll_Throw in Hbad as [x Hx]. congruence.
  - intros Hgood.
    destruct (proj1 (convertAll_Throw response)) as (be & Hin & Hnone);
      [by exists TypeError|].
    by destruct (Hgood be Hin).
  - done.
Qed.

Lemma loadExpenses_all_or_nothing_witness :
  loadExpenses numbered_uuid [parse_rohit_priya; parse_without_items; parse_naming_you]
               empty_state
  = (empty_state, Some TypeError).
Proof.
  apply (proj2 (loadExpenses_all_or_nothing numbered_uuid
                  [parse_rohit_priya; parse_without_items; parse_naming_you]
                  empty_state)).
  exists parse_without_items. split; [|reflexivity].
  apply list_elem_of_further, list_elem_of_here.
Defined.

(** ** Grouping in general *)

Section GroupingInGeneral.

Variable randomUUID : nat -> string.

Lemma same_members_refl (ms : list string) (i n : string) :
  same_members ms {| space_id := i; name := n; space_members := ms |} = true.
Proof.
  unfold same_members. simpl. rewrite Nat.eqb_refl. simpl.
  apply forallb_forall. intros x Hx. apply bool_decide_eq_true.
  by apply list_elem_of_In.
Qed.

(** The spaces only grow, at the end. *)
Lemma group_fold_extends (l : list Expense) (spaces : list SharedSpace) (calls : nat) :
  exists added,
    fst (fold_left (group_step randomUUID) l (spaces, calls)) = spaces ++ added.
Proof.
  revert spaces calls. induction l as [|e l IH]; intros spaces calls; cbn [fold_left].
  - exists []. by rewrite app_nil_r.
  - pose proof (group_step_spaces randomUUID spaces calls e) as Hstep.
    destruct (group_step randomUUID (spaces, calls) e) as [spaces1 calls1].
    destruct (IH spaces1 calls1) as [added Hadded]. rewrite Hadded.
    simpl in Hstep. rewrite Hstep.
    destruct (shared_member_list e) as [ms|]; [|by exists added].
    destruct (existsb _ _); [by exists added|].
    eexists. by rewrite <- app_assoc.
Qed.

(** Every shared expense finds, among the spaces grouped so far and
    later, one that the test of [find] accepts. *)
Lemma group_fold_covers (l : list Expense) (spaces : list SharedSpace) (calls : nat)
    (e : Expense) (ms : list string) :
  e ∈ l -> shared_member_list e = Some ms ->
  existsb (same_members ms)
          (fst (fold_left (group_step randomUUID) l (spaces, calls))) = true.
Proof.
  revert spaces calls. induction l as [|x l IH]; intros spaces calls Hin Hms;
    [by apply elem_of_nil in Hin|].
  cbn [fold_left].
  pose proof (group_step_spaces randomUUID spaces calls x) as Hstep.
  destruct (group_step randomUUID (spaces, calls) x) as [spaces1 calls1].
  apply elem_of_cons in Hin as [<- | Hin]; [|by apply IH].
  destruct (group_fold_extends l spaces1 calls1) as [added ->].
  rewrite existsb_app. apply orb_true_iff. left.
  simpl in Hstep. rewrite Hstep, Hms.
  destruct (existsb (same_members ms) spaces) eqn:Hfound; [done|].
  rewrite existsb_app. apply orb_true_iff. right. simpl.
  by rewrite same_members_refl.
Qed.

(** Each space stems from a shared expense of the collection: it has that
    expense's members and its vendor in the name. *)
Lemma group_fold_origin (l : list Expense) (spaces : list SharedSpace) (calls : nat)
    (space : SharedSpace) :
  space ∈ fst (fold_left (group_step randomUUID) l (spaces, calls)) ->
  space ∈ spaces
  \/ exists e, e ∈ l /\ shared_member_list e = Some (space_members space)
               /\ name space = vendorName e +:+ " Group".
Proof.
  revert spaces calls. induction l as [|x l IH]; intros spaces calls; cbn [fold_left];
    [by left|].
  pose proof (group_step_spaces randomUUID spaces calls x) as Hstep.
  destruct (group_step randomUUID (spaces, calls) x) as [spaces1 calls1].
  intros [Hin | (e & He & Hms & Hname)]%IH.
  - simpl in Hstep. rewrite Hstep in Hin.
    destruct (shared_member_list x) as [ms|] eqn:Hx; [|by left].
    destruct (existsb _ _); [by left|].
    apply elem_of_app in Hin as [Hin | ->%list_elem_of_singleton]; [by left|].
    right. exists x. split; [by left | done].
  - right. exists e. split; [by right | done].
Qed.

Lemma group_fold_length (l : list Expense) (spaces : list SharedSpace) (calls : nat) :
  length (fst (fold_left (group_step randomUUID) l (spaces, calls)))
  <= length spaces + length (sharedExpenses l).
Proof.
  revert spaces calls. induction l as [|x l IH]; intros spaces calls; cbn [fold_left];
    [simpl; lia|].
  pose proof (group_step_spaces randomUUID spaces calls x) as Hstep.
  destruct (group_step randomUUID (spaces, calls) x) as [spaces1 calls1].
  etransitivity; [apply IH|]. simpl in Hstep. rewrite Hstep.
  unfold sharedExpenses, shared_member_list. simpl.
  destruct (type x); simpl; [lia|].
  destruct (members x); [|simpl; lia].
  destruct (existsb _ _); [simpl; lia|]. rewrite length_app. simpl. lia.
Qed.

(** X14.  Whatever the member lists look like, the grouping covers every
    shared expense and invents nothing: each shared expense with members
    finds a space that the test of [find] accepts for it; each space has
    the member list of one of the shared expenses and is named
    "<vendorName> Group" after it; and there are at most as many spaces as
    shared expenses. *)
Theorem groupSharedSpaces_covers (l : list Expense) :
  (forall e ms, e ∈ l -> type e = shared -> members e = Some ms ->
                existsb (same_members ms) (groupSharedSpaces randomUUID l) = true)
  /\ (forall space, space ∈ groupSharedSpaces randomUUID l ->
        exists e, e ∈ l /\ type e = shared
                  /\ members e = Some (space_members space)
                  /\ name space = vendorName e +:+ " Group")
  /\ length (groupSharedSpaces randomUUID l) <= length (sharedExpenses l).
Proof.
  unfold groupSharedSpaces. split; [|split].
  - intros e ms Hin Htype Hms. apply (group_fold_covers l [] 0 e ms Hin).
    unfold shared_member_list. by rewrite Htype, Hms.
  - intros space Hin.
    apply group_fold_origin in Hin as [Hin%elem_of_nil | (e & He & Hms & Hname)]; [done|].
    exists e. unfold shared_member_list in Hms.
    destruct (type e); [done|]. destruct (members e); [|done].
    by injection Hms as ->.
  - apply (group_fold_length l [] 0).
Qed.

End GroupingInGeneral.

Section LoadedSpaces.

Variable randomUUID : nat -> string.

Lemma group_step_fresh_id (spaces : list SharedSpace) (calls : nat) (e : Expense) :
  sharedSpaceId e = None ->
  group_step randomUUID (spaces, calls) e
  = match shared_member_list e with
    | Some ms =>
        if existsb (same_members ms) spaces then (spaces, calls)
        else (spaces ++ [ {| space_id := randomUUID calls;
                             name := vendorName e +:+ " Group";
                             space_members := ms |} ], S calls)
    | None => (spaces, calls)
    end.
Proof.
  intros Hid. unfold group_step, shared_member_list, space_id_for. rewrite Hid.
  destruct (type e); [done|]. by destruct (members e).
Qed.

(** Without ids of their own on the expenses, the [i]-th space gets the
    [i]-th id drawn. *)
Lemma group_fold_ids (l : list Expense) (spaces : list SharedSpace) (calls : nat) :
  Forall (fun e => sharedSpaceId e = None) l ->
  calls = length spaces ->
  (forall i space, spaces !! i = Some space -> space_id space = randomUUID i) ->
  forall i space,
    fst (fold_left (group_step randomUUID) l (spaces, calls)) !! i = Some space ->
    space_id space = randomUUID i.
Proof.
  intros Hl. revert spaces calls.
  induction Hl as [|e l He _ IH]; intros spaces calls Hcalls Hids; cbn [fold_left];
    [exact Hids|].
  rewrite (group_step_fresh_id spaces calls e He).
  destruct (shared_member_list e) as [ms|]; [|by apply IH].
  destruct (existsb _ _); [by apply IH|].
  apply IH; [rewrite length_app; simpl; lia|].
  intros i space Hi. apply lookup_app_Some in Hi as [Hi | [Hge Hi]]; [by apply Hids|].
  apply list_lookup_singleton_Some in Hi as [Hzero <-]. simpl. f_equal. lia.
Qed.

(** X15.  After a successful load the [i]-th shared space carries the
    [i]-th id that [crypto.randomUUID()] returned (converted expenses bring
    no space id of their own), its members begin with "You", and it is
    named "<vendorName> Group" after one of the loaded shared expenses. *)
Theorem loadExpenses_spaces (response : list BackendExpense) (st : AppState) :
  let outcome := loadExpenses randomUUID response st in
  outcome.2 = None ->
  forall i space,
    sharedSpaces outcome.1 !! i = Some space ->
    space_id space = randomUUID i
    /\ (exists others, space_members space = "You" :: others)
    /\ (exists e, e ∈ expenses outcome.1 /\ type e = shared
                  /\ name space = vendorName e +:+ " Group").
Proof.
  intros outcome. subst outcome. unfold loadExpenses.
  destruct (convertAll response) as [es|x] eqn:Hall; cbn [fst snd]; [|done].
  intros _ i space Hi. apply convertAll_Ok in Hall.
  assert (Hconverted : forall e, e ∈ es ->
            exists be, convertBackendExpenseToFrontend be = Ok e).
  { intros e (k & Hk)%list_elem_of_lookup.
    destruct (Forall2_lookup_r _ _ _ _ _ Hall Hk) as (be & _ & Hbe). by exists be. }
  assert (Horigin : exists e, e ∈ es /\ type e = shared
                              /\ members e = Some (space_members space)
                              /\ name space = vendorName e +:+ " Group").
  { destruct (group_fold_origin randomUUID es [] 0 space) as
      [Hin%elem_of_nil | (e & He & Hms & Hname)];
      [by eapply list_elem_of_lookup_2 | done |].
    exists e. unfold shared_member_list in Hms.
    destruct (type e); [done|]. destruct (members e); [|done].
    by injection Hms as ->. }
  split; [|split].
  - apply (group_fold_ids es [] 0); [|done|done|exact Hi].
    apply Forall_forall. intros e [be Hbe]%Hconverted.
    by destruct (convert_fields be e Hbe) as (? & ? & _ & _ & _ & _ & _ & _ & _ & _ & Hid & _).
  - destruct Horigin as (e & He & Htype & Hms & _).
    destruct (Hconverted e He) as [be Hbe].
    destruct (proj2 (convert_type_and_members_aux be e Hbe) Htype) as [Hyou _].
    rewrite Hms in Hyou. injection Hyou as ->. by eexists.
  - destruct Horigin as (e & He & Htype & _ & Hname). by exists e.
Qed.

End LoadedSpaces.

Lemma loadExpenses_spaces_witness :
  exists space,
    sharedSpaces (loadExpenses numbered_uuid [parse_rohit_priya; parse_naming_you]
                               empty_state).1 !! 1 = Some space
    /\ space_id space = "uuid-1".
Proof.
  set (outcome := loadExpenses numbered_uuid [parse_rohit_priya; parse_naming_you]
                               empty_state).
  destruct (sharedSpaces outcome.1 !! 1) as [space|] eqn:Hspace; [|by vm_compute in Hspace].
  exists space. split; [done|].
  exact (proj1 (loadExpenses_spaces numbered_uuid
                  [parse_rohit_priya; parse_naming_you] empty_state
                  ltac:(by vm_compute) 1 space Hspace)).
Defined.

(** * Further properties of the dashboard *)

(** X16.  The two tabs split the expenses: every expense is listed on
    exactly one of them, each tab keeps the order of the expenses, and
    together they hold all of them. *)
Theorem personal_shared_partition (expenses : list Expense) :
  personalExpenses expenses ++ sharedExpenses expenses ≡ₚ expenses
  /\ length (personalExpenses expenses) + length (sharedExpenses expenses)
     = length expenses
  /\ sublist (personalExpenses expenses) expenses
  /\ sublist (sharedExpenses expenses) expenses
  /\ forall e, e ∈ expenses ->
       (e ∈ personalExpenses expenses <-> e ∉ sharedExpenses expenses).
Proof.
  unfold personalExpenses, sharedExpenses.
  assert (Hperm : List.filter (fun e => bool_decide (type e = personal)) expenses
                  ++ List.filter (fun e => bool_decide (type e = shared)) expenses
                  ≡ₚ expenses).
  { induction expenses as [|e l IH]; [done|]. simpl.
    destruct (type e); simpl.
    - by constructor.
    - rewrite <- Permutation_middle. by constructor. }
  split; [exact Hperm|].
  split; [by rewrite <- length_app, Hperm|].
  split; [apply filter_sublist|]. split; [apply filter_sublist|].
  intros e He. rewrite !list_elem_of_In, !filter_In, <- !list_elem_of_In.
  rewrite !bool_decide_eq_true.
  destruct (type e); split; intros H; try tauto; try (intros [_ Hs]; done);
    try (destruct H as [_ Hp]; done); exfalso; apply H; by split.
Qed.

Lemma sum_of_counts_insert (counts : gmap nat nat) (k n : nat) :
  sum_of_counts (<[k := n]> counts) + default 0 (counts !! k)
  = n + sum_of_counts counts.
Proof.
  unfold sum_of_counts.
  assert (Hswap : forall (m : gmap nat nat) (j1 j2 z1 z2 y : nat),
            j1 <> j2 -> m !! j1 = Some z1 -> m !! j2 = Some z2 ->
            z1 + (z2 + y) = z2 + (z1 + y)) by (intros; lia).
  destruct (counts !! k) as [old|] eqn:Hk; simpl.
  - rewrite <- (insert_delete_eq counts k n).
    rewrite map_fold_insert_L; [|by eapply Hswap | apply lookup_delete_eq].
    rewrite (map_fold_delete_L _ 0 k old counts); [lia | by eapply Hswap | done].
  - rewrite map_fold_insert_L; [lia | by eapply Hswap | done].
Qed.

Lemma count_members_sum (acc : gmap nat nat) (exp : Expense) :
  sum_of_counts (count_members acc exp) = S (sum_of_counts acc).
Proof.
  unfold count_members.
  pose proof (sum_of_counts_insert acc (memberCount exp)
                (default 0 (acc !! memberCount exp) + 1)). lia.
Qed.

Lemma count_members_lookup (acc : gmap nat nat) (exp : Expense) (k : nat) :
  default 0 (count_members acc exp !! k)
  = default 0 (acc !! k) + (if bool_decide (memberCount exp = k) then 1 else 0).
Proof.
  unfold count_members. case_bool_decide as Hk.
  - subst k. by rewrite lookup_insert_eq.
  - rewrite lookup_insert_ne by done. lia.
Qed.

Lemma fold_count_members (l : list Expense) (acc : gmap nat nat) :
  sum_of_counts (fold_left count_members l acc) = sum_of_counts acc + length l
  /\ (forall k, default 0 (fold_left count_members l acc !! k)
                = default 0 (acc !! k) + with_member_count k l)
  /\ ((forall k n, acc !! k = Some n -> 0 < n) ->
      forall k n, fold_left count_members l acc !! k = Some n -> 0 < n).
Proof.
  revert acc. induction l as [|exp l IH]; intros acc.
  - simpl. split; [lia|]. split; [intros k; unfold with_member_count; simpl; lia | done].
  - cbn [fold_left]. destruct (IH (count_members acc exp)) as (Hsum & Hlookup & Hpos).
    split; [rewrite Hsum, count_members_sum; simpl; lia|]. split.
    + intros k. rewrite Hlookup, count_members_lookup.
      unfold with_member_count. simpl. case_bool_decide; simpl; lia.
    + intros Hacc. apply Hpos. intros k n. unfold count_members.
      destruct (decide (memberCount exp = k)) as [<-|Hne].
      * rewrite lookup_insert_eq. intros [= <-]. lia.
      * rewrite lookup_insert_ne by done. apply Hacc.
Qed.

(** X17.  [participantCounts] is the histogram of member counts: under
    each number of members it holds how many of the shared expenses list
    that many members (an expense without a member list counts under 0),
    a number of members that does not occur has no entry rather than a
    zero, and the counts add up to the number of shared expenses. *)
Theorem participantCounts_histogram (shared_list : list Expense) :
  let counts := participantCounts (sharedAnalytics shared_list) in
  sum_of_counts counts = length shared_list
  /\ forall k,
       counts !! k
       = if with_member_count k shared_list =? 0 then None
         else Some (with_member_count k shared_list).
Proof.
  intros counts. subst counts. cbn [participantCounts sharedAnalytics].
  destruct (fold_count_members shared_list ∅) as (Hsum & Hlookup & Hpos).
  split; [rewrite Hsum; unfold sum_of_counts; by rewrite map_fold_empty|].
  intros k. specialize (Hlookup k). rewrite lookup_empty in Hlookup. simpl in Hlookup.
  destruct (fold_left count_members shared_list ∅ !! k) as [n|] eqn:Hk; simpl in Hlookup.
  - assert (0 < n) by (eapply Hpos; [by intros ? ? ?%lookup_empty_Some | done]).
    rewrite <- Hlookup. destruct n; [lia | done].
  - by rewrite <- Hlookup.
Qed.




(** X19.  Expanding and collapsing a line item: [toggleItemExpansion]
    flips the membership of the item's id and of no other id, so toggling
    the same item twice restores the set. *)
Theorem toggleItemExpansion_flips (expandedItemIds : gset string) (itemId : string) :
  (itemId ∈ toggleItemExpansion expandedItemIds itemId <-> itemId ∉ expandedItemIds)
  /\ (forall other, other <> itemId ->
        (other ∈ toggleItemExpansion expandedItemIds itemId <-> other ∈ expandedItemIds))
  /\ toggleItemExpansion (toggleItemExpansion expandedItemIds itemId) itemId
     = expandedItemIds.
Proof.
  assert (Hself : forall s : gset string,
            itemId ∈ toggleItemExpansion s itemId <-> itemId ∉ s).
  { intros s. unfold toggleItemExpansion. case_bool_decide as Hin.
    - rewrite elem_of_difference, elem_of_singleton. tauto.
    - rewrite elem_of_union, elem_of_singleton. tauto. }
  assert (Hother : forall (s : gset string) other, other <> itemId ->
            (other ∈ toggleItemExpansion s itemId <-> other ∈ s)).
  { intros s other Hne. unfold toggleItemExpansion. case_bool_decide as Hin.
    - rewrite elem_of_difference, elem_of_singleton. tauto.
    - rewrite elem_of_union, elem_of_singleton. tauto. }
  split; [apply Hself|]. split; [apply Hother|].
  apply set_eq. intros x. destruct (decide (x = itemId)) as [->|Hne].
  - rewrite Hself, Hself. destruct (decide (itemId ∈ expandedItemIds)); tauto.
  - by rewrite !Hother.
Qed.

Lemma Qc_lt_irrefl (q : Qc) : ~ (q < q)%Qc.
Proof. apply Qcle_not_lt, Qcle_refl. Qed.




Lemma over_budget (t b : Qc) :
  (Qc_of_Z 0 < b)%Qc ->
  (Qc_of_Z 100 < t / b * Qc_of_Z 100)%Qc <-> (b < t)%Qc.
Proof.
  intros Hb.
  assert (Hb' : b <> Q2Qc 0) by (rewrite <- Qc_of_Z_zero; intros ->; by apply Qc_lt_irrefl in Hb).
  assert (H100 : (Qc_of_Z 0 < Qc_of_Z 100)%Qc) by compute_done.
  assert (Hone : Qc_of_Z 100 = (Qc_of_Z 1 * Qc_of_Z 100)%Qc) by compute_done.
  rewrite Hone at 1.
  rewrite <- (Qcmult_lt_mono_pos_r (Qc_of_Z 1) (t / b) (Qc_of_Z 100)) by (by rewrite <- Qc_of_Z_zero).
  rewrite (Qcmult_lt_mono_pos_r (Qc_of_Z 1) (t / b) b) by (by rewrite <- Qc_of_Z_zero).
  assert (Hcancel : (t / b * b)%Qc = t) by (by apply test_field).
  assert (Hunit : (Qc_of_Z 1 * b)%Qc = b) by (replace (Qc_of_Z 1) with (Q2Qc 1) by (by apply Qc_is_canon); ring).
  by rewrite Hcancel, Hunit.
Qed.

(** X21.  Over budget: for a finite budget and a finite total of this
    month (amounts as exact rationals), the bar is red exactly when the
    budget is positive and the total exceeds it, a red bar is drawn at
    full width, and the amount left is the budget minus the total.  A
    budget of zero or below never turns the bar red. *)
Theorem budgetCard_over_budget (stats : DashboardStatsResponse) (t b : Qc) :
  this_month_total stats = Finite t ->
  let card := budgetCard (Some stats) (Finite b) in
  (barIsRed card = true <-> (Qc_of_Z 0 < b)%Qc /\ (b < t)%Qc)
  /\ (barIsRed card = true -> barWidth card = num 100)
  /\ budgetRemaining card = Finite (b - t).
Proof.
  intros Ht card. subst card. unfold budgetCard.
  cbn [barIsRed barWidth budgetRemaining].
  rewrite Ht, or_else_finite by done. cbn [sub].
  split; [|split; [|done]].
  - cbn [gt num]. case_bool_decide as Hb.
    + rewrite div_finite by (intros ->; by apply Qc_lt_irrefl in Hb).
      unfold num. cbn [mul gt]. rewrite bool_decide_eq_true, over_budget by done. tauto.
    + split; [|tauto]. unfold num. cbn [gt]. rewrite bool_decide_eq_true.
      intros Hlt. by vm_compute in Hlt.
  - intros Hred. unfold math_min.
    destruct (if gt (Finite b) (num 0) then _ else _) as [p| | |] eqn:Hp;
      try done; by rewrite Hred.
Qed.

Lemma budgetCard_over_budget_witness :
  barIsRed (budgetCard (Some (stats_with (Qc_of_Z 60000))) (Finite (Qc_of_Z 50000)))
  = true
  /\ barWidth (budgetCard (Some (stats_with (Qc_of_Z 60000))) (Finite (Qc_of_Z 50000)))
     = num 100.
Proof.
  pose proof (budgetCard_over_budget (stats_with (Qc_of_Z 60000))
                (Qc_of_Z 60000) (Qc_of_Z 50000) eq_refl) as (Hred & Hwidth & _).
  assert (Hbar : barIsRed (budgetCard (Some (stats_with (Qc_of_Z 60000)))
                             (Finite (Qc_of_Z 50000))) = true).
  { apply Hred. split; compute_done. }
  split; [exact Hbar | exact (Hwidth Hbar)].
Defined.

Lemma category_hash_acc (acc : nat) (category : string) :
  category_hash acc category = acc + category_hash 0 category.
Proof.
  revert acc. induction category as [|char rest IH]; intros acc; simpl; [lia|].
  rewrite (IH (acc + _)), (IH (N.to_nat _)). lia.
Qed.

Lemma category_hash_permutation (chars1 chars2 : list ascii) :
  chars1 ≡ₚ chars2 ->
  category_hash 0 (String.string_of_list_ascii chars1)
  = category_hash 0 (String.string_of_list_ascii chars2).
Proof.
  induction 1 as [|c l1 l2 _ IH|c1 c2 l|l1 l2 l3 _ IH1 _ IH2]; simpl.
  - done.
  - rewrite (category_hash_acc (N.to_nat _)), (category_hash_acc (N.to_nat _) (String.string_of_list_ascii l2)).
    by rewrite IH.
  - rewrite (category_hash_acc (_ + _)), (category_hash_acc (_ + _) (String.string_of_list_ascii l)). lia.
  - by rewrite IH1.
Qed.

(** X22.  [getCategoryColor] always answers with one of its ten colour
    pairs, never with [undefined]; the pair depends on the characters of
    the category only, not on their order, so that categories that are
    anagrams of each other share a colour. *)
Theorem getCategoryColor_palette :
  (forall category, exists color,
      getCategoryColor category = Some color /\ color ∈ category_colors)
  /\ (forall category1 category2,
        String.list_ascii_of_string category1 ≡ₚ String.list_ascii_of_string category2 ->
        getCategoryColor category1 = getCategoryColor category2).
Proof.
  split.
  - intros category. unfold getCategoryColor.
    destruct (lookup_lt_is_Some_2 category_colors
                (category_hash 0 category mod length category_colors)) as [color Hcolor].
    { apply Nat.mod_upper_bound. done. }
    exists color. split; [done | by eapply list_elem_of_lookup_2].
  - intros category1 category2 Hperm. unfold getCategoryColor.
    apply category_hash_permutation in Hperm.
    by rewrite !String.string_of_list_ascii_of_string in Hperm; rewrite Hperm.
Qed.
